(** * Model-invocation layer of the agent runtime

    A shallow embedding of
      - packages/core/src/generation.ts      (text, image and caption generation)
      - packages/plugin-solana/src/keypairUtils.ts   (wallet key loading)

    Conventions of the embedding.
      - A JavaScript string is a [string]; every character stands for one
        UTF-16 code unit in the range U+0000..U+00FF.
      - A JavaScript [number] that the code only uses as an integer (pixel
        sizes, delays in milliseconds, counts) is a [Z]; the doubling of a
        delay is exact in double precision for more than a thousand
        rounds.  A number that need not be an integer (a guidance scale)
        is a [Q].  The delay of a wait is the number handed to
        [setTimeout].
      - An [async] function is a state-passing function over the [World],
        the chronological list of the effects performed so far; a rejected
        promise is the completion [Throw], a fulfilled one is [Return].
      - A [while (true)] loop takes a [fuel] bound on its iterations and
        answers [None] when the bound is reached with the loop still
        running.
      - Logging through [elizaLogger] and [console] has no effect that the
        program can observe and is left out.
      - A name that the file uses without declaring or importing it is a
        completion that throws the [ReferenceError] of its evaluation. *)

From Stdlib Require Import ZArith QArith List String Ascii Lia Bool.
From stdpp Require Import base decidable option list strings pretty gmap.
Import ListNotations.
Local Open Scope string_scope.
Local Open Scope list_scope.
Local Open Scope Z_scope.
Local Set Warnings "-register-all".

(** ** JavaScript values and completions *)

Module Js.

(** An exception value: the constructor name of the error and its
    message, as in [new Error(message)]. *)
Record JsError : Type := mkError { errName : string; errMessage : string }.

Definition Error (message : string) : JsError := mkError "Error" message.
Definition TypeError (message : string) : JsError := mkError "TypeError" message.
Definition ReferenceError (message : string) : JsError :=
  mkError "ReferenceError" message.

(** The outcome of evaluating a call: a value, or a thrown exception. *)
Inductive completion (A : Type) : Type :=
| Return (a : A)
| Throw (e : JsError).
Arguments Return {A} a.
Arguments Throw {A} e.

Definition is_return {A} (c : completion A) : bool :=
  match c with Return _ => true | Throw _ => false end.

Definition is_throw {A} (c : completion A) : bool :=
  match c with Return _ => false | Throw _ => true end.

(** [!s] is false exactly for the non-empty strings. *)
Definition truthy (s : string) : bool :=
  match s with EmptyString => false | String _ _ => true end.

(** [!o] for a value of type [string | null | undefined]. *)
Definition truthy_opt (o : option string) : bool :=
  match o with Some s => truthy s | None => false end.

(** [a ?? b]: the right operand only when the left one is null or
    undefined; the empty string is kept. *)
Definition nullish {A} (a b : option A) : option A :=
  match a with Some _ => a | None => b end.

(** [a || b] on strings that may be absent. *)
Definition or_else (a b : option string) : option string :=
  if truthy_opt a then a else b.

(** [n || d] on numbers: zero (and an absent number) is falsy. *)
Definition num_or (n : option Z) (d : Z) : Z :=
  match n with
  | Some v => if Z.eqb v 0 then d else v
  | None => d
  end.

(** White space and line terminators of ECMAScript among the code
    units the model represents: TAB, LF, VT, FF, CR, SP and NBSP. *)
Definition is_white_space (c : ascii) : bool :=
  let n := nat_of_ascii c in
  match n with
  | 9%nat | 10%nat | 11%nat | 12%nat | 13%nat | 32%nat | 160%nat => true
  | _ => false
  end.

Fixpoint trimStart (s : string) : string :=
  match s with
  | EmptyString => EmptyString
  | String c rest => if is_white_space c then trimStart rest else s
  end.

(** [trimEnd] keeps a character when it is not white space or when
    something remains after it. *)
Fixpoint trimEnd (s : string) : string :=
  match s with
  | EmptyString => EmptyString
  | String c rest =>
      match trimEnd rest with
      | EmptyString => if is_white_space c then EmptyString else String c EmptyString
      | kept => String c kept
      end
  end.

(** [String.prototype.trim]. *)
Definition trim (s : string) : string := trimEnd (trimStart s).

(** Strings of white space only, and strings that begin or end with
    white space: the words in which [trim] is specified. *)
Fixpoint all_white_space (s : string) : bool :=
  match s with
  | EmptyString => true
  | String c rest => is_white_space c && all_white_space rest
  end.

Definition starts_with_white_space (s : string) : bool :=
  match s with
  | EmptyString => false
  | String c _ => is_white_space c
  end.

Fixpoint ends_with_white_space (s : string) : bool :=
  match s with
  | EmptyString => false
  | String c EmptyString => is_white_space c
  | String _ rest => ends_with_white_space rest
  end.

(** [s.startsWith(p)]. *)
Fixpoint startsWith (p s : string) : bool :=
  match p, s with
  | EmptyString, _ => true
  | String a p', String b s' => if Ascii.eqb a b then startsWith p' s' else false
  | String _ _, EmptyString => false
  end.

(** [s.includes(p)]. *)
Fixpoint includes (p s : string) : bool :=
  if startsWith p s then true
  else match s with
       | EmptyString => false
       | String _ s' => includes p s'
       end.

(** Whether the code unit [c] occurs in [s]. *)
Fixpoint occurs (c : ascii) (s : string) : bool :=
  match s with
  | EmptyString => false
  | String a rest => if Ascii.eqb a c then true else occurs c rest
  end.

Arguments startsWith : simpl never.
Arguments includes : simpl never.
Arguments trim : simpl never.

(** A JSON value as produced by [response.json()], together with
    [undefined], which reading a missing property produces.  Numbers are
    the integers. *)
Inductive JsValue : Type :=
| JUndefined
| JNull
| JBool (b : bool)
| JNum (n : Z)
| JStr (s : string)
| JArr (items : list JsValue)
| JObj (fields : list (string * JsValue)).

(** [!v] is false exactly for the truthy values. *)
Definition truthy_value (v : JsValue) : bool :=
  match v with
  | JUndefined | JNull => false
  | JBool b => b
  | JNum n => negb (Z.eqb n 0)
  | JStr s => truthy s
  | JArr _ | JObj _ => true
  end.

Fixpoint join (sep : string) (parts : list string) : string :=
  match parts with
  | [] => ""
  | [p] => p
  | p :: rest => p +:+ sep +:+ join sep rest
  end.

(** The string a template literal [`${v}`] inserts for [v]. *)
Fixpoint toString (v : JsValue) : string :=
  match v with
  | JUndefined => "undefined"
  | JNull => "null"
  | JBool true => "true"
  | JBool false => "false"
  | JNum n => pretty n
  | JStr s => s
  | JArr items =>
      join "," (map (fun item =>
                       match item with
                       | JUndefined | JNull => ""
                       | _ => toString item
                       end) items)
  | JObj _ => "[object Object]"
  end.

Fixpoint assoc (key : string) (fields : list (string * JsValue)) : JsValue :=
  match fields with
  | [] => JUndefined
  | (k, v) :: rest => if String.eqb k key then v else assoc key rest
  end.

(** [v.key] (or [v[key]]): reading a property of [null] or [undefined]
    throws, a missing property reads as [undefined].  JSON.parse keeps the
    last of several fields with one name; [assoc] expects the fields
    without such repetitions. *)
Definition getProp (v : JsValue) (key : string) : completion JsValue :=
  match v with
  | JUndefined =>
      Throw (TypeError ("Cannot read properties of undefined (reading '" +:+ key +:+ "')"))
  | JNull =>
      Throw (TypeError ("Cannot read properties of null (reading '" +:+ key +:+ "')"))
  | JObj fields => Return (assoc key fields)
  | JArr items =>
      if String.eqb key "length" then Return (JNum (Z.of_nat (length items)))
      else Return JUndefined
  | JStr s =>
      if String.eqb key "length" then Return (JNum (Z.of_nat (String.length s)))
      else Return JUndefined
  | JBool _ | JNum _ => Return JUndefined
  end.

End Js.
Export Js.

(** ** Effects: asynchronous calls over a world of events *)

Module Effects.

(** A computation reads and extends the chronological list of the events
    performed so far.  The events performed before an exception stay. *)
Definition M (Ev A : Type) : Type := list Ev -> completion A * list Ev.

Definition ret {Ev A} (a : A) : M Ev A := fun w => (Return a, w).

Definition throw {Ev A} (e : JsError) : M Ev A := fun w => (Throw e, w).

Definition bind {Ev A B} (c : M Ev A) (k : A -> M Ev B) : M Ev B :=
  fun w =>
    match c w with
    | (Return a, w1) => k a w1
    | (Throw e, w1) => (Throw e, w1)
    end.

(** Receiving a completion decided outside of the program. *)
Definition lift {Ev A} (c : completion A) : M Ev A := fun w => (c, w).

Definition emit {Ev} (ev : Ev) : M Ev unit := fun w => (Return tt, w ++ [ev]).

(** An awaited call to a collaborator: the request is recorded, then the
    collaborator's reply is received. *)
Definition perform {Ev A} (ev : Ev) (reply : completion A) : M Ev A :=
  bind (emit ev) (fun _ => lift reply).

(** [try { body } catch (e) { handler e }]. *)
Definition try_catch {Ev A} (body : M Ev A) (handler : JsError -> M Ev A) : M Ev A :=
  fun w =>
    match body w with
    | (Return a, w1) => (Return a, w1)
    | (Throw e, w1) => handler e w1
    end.

(** The promises of [items.map(async (item) => f item)], in the order of
    the items: every callback is started, so the effects of all of them
    happen, whether an earlier one fails or not. *)
Fixpoint start_all {Ev A B} (f : A -> M Ev B) (items : list A)
  : list Ev -> list (completion B) * list Ev :=
  match items with
  | [] => fun w => ([], w)
  | item :: rest =>
      fun w =>
        let (promise, w1) := f item w in
        let (promises, w2) := start_all f rest w1 in
        (promise :: promises, w2)
  end.

Fixpoint fulfilled {B} (promises : list (completion B)) : list B :=
  match promises with
  | [] => []
  | Return b :: rest => b :: fulfilled rest
  | Throw _ :: rest => fulfilled rest
  end.

Fixpoint rejected {B} (promises : list (completion B)) : list JsError :=
  match promises with
  | [] => []
  | Return _ :: rest => rejected rest
  | Throw e :: rest => e :: rejected rest
  end.

(** [await Promise.all(items.map(async (item) => f item))]: the list of
    the values when every promise is fulfilled, and otherwise the
    rejection that comes first in time.  Which one that is depends on the
    timing of the collaborators: [first n] is its place among the [n]
    rejections, taken in the order of the items. *)
Definition promise_all {Ev A B} (first : nat -> nat) (f : A -> M Ev B) (items : list A)
  : M Ev (list B) :=
  fun w =>
    let (promises, w') := start_all f items w in
    match rejected promises with
    | [] => (Return (fulfilled promises), w')
    | e :: es => (Throw (nth (first (S (length es))) (e :: es) e), w')
    end.

(** [items.map((item) => f item)] with a callback that may throw: the
    first exception ends the traversal. *)
Fixpoint map_throwing {A B} (f : A -> completion B) (items : list A) : completion (list B) :=
  match items with
  | [] => Return []
  | item :: rest =>
      match f item with
      | Throw e => Throw e
      | Return b =>
          match map_throwing f rest with
          | Return bs => Return (b :: bs)
          | Throw e => Throw e
          end
      end
  end.

Declare Scope js_scope.
Delimit Scope js_scope with js.
Notation "'let*' x ':=' c 'in' k" := (bind c (fun x => k))
  (at level 10, x name, c at level 100, k at level 200) : js_scope.

End Effects.
Export Effects.
Local Open Scope js_scope.

(** ** The runtime and its collaborators *)

Module Runtime.

(** The members of the enumeration [ModelProviderName] (types.ts) that
    generation.ts names, and [OtherProvider name] for a member whose
    value [name] is none of theirs. *)
Inductive ModelProviderName : Type :=
| HEURIST | TOGETHER | LLAMACLOUD | FAL | OPENAI | VENICE | NINETEEN_AI | LIVEPEER
| OtherProvider (name : string).

#[global] Instance ModelProviderName_eq_dec : EqDecision ModelProviderName.
Proof. solve_decision. Defined.

(** The capability tier of a model (types.ts, [ModelClass]). *)
Inductive ModelClass : Type := SMALL | MEDIUM | LARGE | EMBEDDING | IMAGE.

(** [ServiceType] (types.ts): the one member the code asks for, and
    [OtherService] for the others. *)
Inductive ServiceType : Type :=
| IMAGE_DESCRIPTION
| OtherService (name : string).

Record Character : Type := {
  system : option string;
  modelEndpointOverride : option string
}.

(** The parts of [IAgentRuntime] the code reads.  [settings] is what
    [runtime.getSetting] answers from, [defaultModel] is
    [runtime.getModelProvider().defaultModel], [hasService] tells whether
    [runtime.getService] finds a service, and [verifiableInferenceAdapter]
    tells whether the adapter is there. *)
Record IAgentRuntime : Type := {
  modelProvider : ModelProviderName;
  imageModelProvider : ModelProviderName;
  token : option string;
  character : Character;
  settings : gmap string string;
  defaultModel : string;
  verifiableInferenceAdapter : bool;
  hasService : ServiceType -> bool
}.

Definition getSetting (runtime : IAgentRuntime) (key : string) : option string :=
  settings runtime !! key.

End Runtime.
Export Runtime.

(** ** generation.ts: the single-shot text call *)

Module TextGeneration.

(** The options of the completion request handed to the provider SDK
    ([aiGenerateText]).  The [tools] and [onStepFinish] options are passed
    through unchanged and no caller in this file sets them. *)
Record AiRequest : Type := {
  baseURL : option string;
  apiKey : option string;
  model : string;
  prompt : string;
  systemPrompt : option string;
  maxSteps : Z
}.

(** [VerifiableInferenceResult] (types.ts): the text and its proof. *)
Record VerifiableInferenceResult : Type := {
  text : string;
  proof : string
}.

(** The effects of text generation: a call of [generateText], a request
    to the provider SDK, the two calls of the verifiable-inference adapter,
    and a wait. *)
Inductive Event : Type :=
| EvGenerateText (context : string)
| EvAiGenerateText (request : AiRequest)
| EvAdapterGenerateText (context : string) (modelClass : ModelClass)
| EvAdapterVerifyProof (result : VerifiableInferenceResult)
| EvSetTimeout (ms : Z).

Abbreviation World := (list Event).

(** What is decided outside of this file: the settings module, the
    process environment, the provider SDK and the verifiable-inference
    adapter.  The external calls answer by the number of calls of
    [generateText] that came before, so a provider may answer one request
    differently at different times. *)
Record Env : Type := {
  SYSTEM_PROMPT : option string;
  VERIFIABLE_INFERENCE_ENABLED : option string;
  aiGenerateText : nat -> AiRequest -> completion string;
  adapterGenerateText : nat -> string -> ModelClass -> completion VerifiableInferenceResult;
  adapterVerifyProof : nat -> VerifiableInferenceResult -> completion bool
}.

Definition is_generateText (ev : Event) : bool :=
  match ev with EvGenerateText _ => true | _ => false end.

Definition is_provider_contact (ev : Event) : bool :=
  match ev with
  | EvAiGenerateText _ | EvAdapterGenerateText _ _ | EvAdapterVerifyProof _ => true
  | _ => false
  end.

(** The calls of [generateText] in a world. *)
Definition calls (w : World) : nat := length (List.filter is_generateText w).

(** The requests that left the process in a world. *)
Definition contacts (w : World) : nat := length (List.filter is_provider_contact w).

(** The delays handed to [setTimeout], in order. *)
Fixpoint delays (w : World) : list Z :=
  match w with
  | [] => []
  | EvSetTimeout ms :: rest => ms :: delays rest
  | _ :: rest => delays rest
  end.

Definition total_delay (w : World) : Z := fold_right Z.add 0 (delays w).

(** [await new Promise((resolve) => setTimeout(resolve, ms))]. *)
Definition sleep (ms : Z) : M Event unit := emit (EvSetTimeout ms).

(** The body of [generateText] (lines 333-479) when [attempt] calls of it
    came before.  An option is [None] when the caller leaves it out:
    [maxSteps] then is 1 and [verifiableInference] reads the process
    environment. *)
Definition generateText_at (env : Env) (runtime : IAgentRuntime) (context : string)
    (modelClass : ModelClass) (maxSteps : option Z) (verifiableInference : option bool)
    (attempt : nat) : M Event string :=
  let* _ := emit (EvGenerateText context) in
  if negb (truthy context) then ret ""
  else
    let verifiable :=
      match verifiableInference with
      | Some flag => flag
      | None => bool_decide (VERIFIABLE_INFERENCE_ENABLED env = Some "true")
      end in
    if verifiable && verifiableInferenceAdapter runtime then
      try_catch
        (let* result :=
           perform (EvAdapterGenerateText context modelClass)
                   (adapterGenerateText env attempt context modelClass) in
         let* isValid :=
           perform (EvAdapterVerifyProof result) (adapterVerifyProof env attempt result) in
         if negb isValid then throw (Error "Failed to verify inference proof")
         else ret (text result))
        (fun error => throw error)
    else
      let endpoint :=
        or_else (modelEndpointOverride (character runtime))
                (getSetting runtime "MODEL_ENDPOINT") in
      let model := defaultModel runtime in
      let apiKey := token runtime in
      try_catch
        (let request :=
           {| baseURL := endpoint; apiKey := apiKey; model := model;
              prompt := context;
              systemPrompt := nullish (system (character runtime)) (SYSTEM_PROMPT env);
              maxSteps := match maxSteps with Some n => n | None => 1 end |} in
         let* text := perform (EvAiGenerateText request) (aiGenerateText env attempt request) in
         ret text)
        (fun error => throw error).

(** [generateText]: the collaborators answer by the number of calls that
    the world has seen. *)
Definition generateText (env : Env) (runtime : IAgentRuntime) (context : string)
    (modelClass : ModelClass) (maxSteps : option Z) (verifiableInference : option bool)
  : M Event string :=
  fun w =>
    generateText_at env runtime context modelClass maxSteps verifiableInference (calls w) w.

(** What the call of [generateText] number [attempt] (from 0) yields when
    a retrying generator makes it. *)
Definition response (env : Env) (runtime : IAgentRuntime) (context : string)
    (modelClass : ModelClass) (attempt : nat) : completion string :=
  fst (generateText_at env runtime context modelClass None None attempt []).

(** ** generation.ts: the retrying generators *)

Inductive ShouldRespond : Type := RESPOND | IGNORE | STOP.

(** The parsers of parsing.ts, which generation.ts imports.  Each one
    answers [None] where the source answers [null]; for
    [parseActionResponseFromText] the answer is the [actions] field of the
    object it returns. *)
Class Parsing : Type := {
  Content : Type;
  ActionResponse : Type;
  parseShouldRespondFromText : string -> option ShouldRespond;
  parseBooleanFromText : string -> option bool;
  parseJsonArrayFromText : string -> option (list JsValue);
  parseJSONObjectFromText : string -> option Content;
  parseActionResponseFromText : string -> option ActionResponse
}.

(** The loop shared by [generateShouldRespond], [generateTrueOrFalse],
    [generateTextArray], [generateObjectArray] and [generateTweetActions]:
<<
    while (true) {
        try { ... return parsed, when the parse succeeded ... } catch (error) { ... }
        await new Promise((resolve) => setTimeout(resolve, retryDelay));
        retryDelay *= 2;
    }
>>
    [attempt] is the [try] statement with its [catch] clause: [Some parsed]
    when it returns, [None] when control falls out of it. *)
Fixpoint retry_loop {A : Type} (attempt : M Event (option A)) (fuel : nat)
    (retryDelay : Z) (w : World) : option (completion A) * World :=
  match fuel with
  | O => (None, w)
  | S fuel' =>
      match attempt w with
      | (Return (Some parsed), w1) => (Some (Return parsed), w1)
      | (Return None, w1) =>
          retry_loop attempt fuel' (retryDelay * 2) (snd (sleep retryDelay w1))
      | (Throw e, w1) => (Some (Throw e), w1)
      end
  end.

Section Generators.
Context {parsing : Parsing}.
Variable env : Env.
Variable runtime : IAgentRuntime.

(** [generateShouldRespond] (lines 498-544). *)
Definition generateShouldRespond (context : string) (modelClass : ModelClass)
    (fuel : nat) : World -> option (completion ShouldRespond) * World :=
  let retryDelay := 1000 in
  retry_loop
    (try_catch
       (let* response := generateText env runtime context modelClass None None in
        let parsedResponse := parseShouldRespondFromText (trim response) in
        ret parsedResponse)
       (fun error => ret None))
    fuel retryDelay.

(** The stop sequences of a model: the [stop] field of the settings that
    [getModelSettings] answered in the revision before this one. *)
Record ModelSettings : Type := { stop : option (list string) }.

(** The name [modelSettings] inside [generateTrueOrFalse].  The statement
    that declared it (line 608) is commented out, and generation.ts
    neither declares nor imports a binding of that name, so evaluating
    the name throws. *)
Definition modelSettings : completion ModelSettings :=
  Throw (ReferenceError "modelSettings is not defined").

(** [generateTrueOrFalse] (lines 597-633).  The stop sequences are
    computed before the loop and outside of any [try]. *)
Definition generateTrueOrFalse (context : string) (modelClass : ModelClass)
    (fuel : nat) : World -> option (completion bool) * World :=
  fun w =>
    let retryDelay := 1000 in
    match modelSettings with
    | Throw e => (Some (Throw e), w)
    | Return settings =>
        (* [stop], made of [stop settings] and a line feed, goes to
           [generateText], which does not read it *)
        retry_loop
          (try_catch
             (let* response := generateText env runtime context modelClass None None in
              let parsedResponse := parseBooleanFromText (trim response) in
              ret parsedResponse)
             (fun error => ret None))
          fuel retryDelay w
    end.

(** [generateTextArray] (lines 653-688). *)
Definition generateTextArray (context : string) (modelClass : ModelClass)
    (fuel : nat) : World -> option (completion (list JsValue)) * World :=
  fun w =>
    if negb (truthy context) then (Some (Return []), w)
    else
      let retryDelay := 1000 in
      retry_loop
        (try_catch
           (let* response := generateText env runtime context modelClass None None in
            let parsedResponse := parseJsonArrayFromText response in
            ret parsedResponse)
           (fun error => ret None))
        fuel retryDelay w.

(** [generateObjectArray] (lines 711-746). *)
Definition generateObjectArray (context : string) (modelClass : ModelClass)
    (fuel : nat) : World -> option (completion (list JsValue)) * World :=
  fun w =>
    if negb (truthy context) then (Some (Return []), w)
    else
      let retryDelay := 1000 in
      retry_loop
        (try_catch
           (let* response := generateText env runtime context modelClass None None in
            let parsedResponse := parseJsonArrayFromText response in
            ret parsedResponse)
           (fun error => ret None))
        fuel retryDelay w.

(** [generateMessageResponse] (lines 760-802).  A response that does not
    parse leads to [continue], which starts the next iteration at once; the
    [catch] clause doubles [retryLength] and then waits that long. *)
Fixpoint generateMessageResponse_loop (context : string) (modelClass : ModelClass)
    (fuel : nat) (retryLength : Z) (w : World) : option (completion Content) * World :=
  match fuel with
  | O => (None, w)
  | S fuel' =>
      match generateText env runtime context modelClass None None w with
      | (Return response, w1) =>
          match parseJSONObjectFromText response with
          | None => generateMessageResponse_loop context modelClass fuel' retryLength w1
          | Some parsedContent => (Some (Return parsedContent), w1)
          end
      | (Throw error, w1) =>
          let retryLength := retryLength * 2 in
          generateMessageResponse_loop context modelClass fuel' retryLength
            (snd (sleep retryLength w1))
      end
  end.

Definition generateMessageResponse (context : string) (modelClass : ModelClass)
    (fuel : nat) : World -> option (completion Content) * World :=
  let retryLength := 1000 in
  generateMessageResponse_loop context modelClass fuel retryLength.

(** [generateTweetActions] (lines 1318-1360). *)
Definition generateTweetActions (context : string) (modelClass : ModelClass)
    (fuel : nat) : World -> option (completion ActionResponse) * World :=
  let retryDelay := 1000 in
  retry_loop
    (try_catch
       (let* response := generateText env runtime context modelClass None None in
        let actions := parseActionResponseFromText (trim response) in
        ret actions)
       (fun error => ret None))
    fuel retryDelay.

(** The [try] statement of the loops that wait after every failure. *)
Definition attempt_of {A : Type} (parse : string -> option A) (context : string)
    (modelClass : ModelClass) : M Event (option A) :=
  try_catch
    (let* response := generateText env runtime context modelClass None None in
     ret (parse response))
    (fun error => ret None).

(** What an attempt makes of the call number [k]: the parsed value, or
    [None] for a response that does not parse and for an exception. *)
Definition outcome {A : Type} (parse : string -> option A) (context : string)
    (modelClass : ModelClass) (k : nat) : option A :=
  match response env runtime context modelClass k with
  | Return t => parse t
  | Throw _ => None
  end.

End Generators.

(** The retrying generators by name, to speak about all of them at once. *)
Inductive Generator : Type :=
| ShouldRespondGen | TrueOrFalseGen | TextArrayGen | ObjectArrayGen
| MessageResponseGen | TweetActionsGen.

(** A value that some generator returns. *)
Inductive Parsed {parsing : Parsing} : Type :=
| PShouldRespond (r : ShouldRespond)
| PBoolean (b : bool)
| PArray (items : list JsValue)
| PContent (c : Content)
| PActions (a : ActionResponse).

(** What generator [g] makes of a response of [generateText]: [None] for
    a response that it does not accept. *)
Definition parse_with {parsing : Parsing} (g : Generator) (response : string) : option Parsed :=
  match g with
  | ShouldRespondGen => PShouldRespond <$> parseShouldRespondFromText (trim response)
  | TrueOrFalseGen => PBoolean <$> parseBooleanFromText (trim response)
  | TextArrayGen | ObjectArrayGen => PArray <$> parseJsonArrayFromText response
  | MessageResponseGen => PContent <$> parseJSONObjectFromText response
  | TweetActionsGen => PActions <$> parseActionResponseFromText (trim response)
  end.

Definition tagged {A B : Type} (tag : A -> B) (r : option (completion A) * World)
  : option (completion B) * World :=
  (match fst r with
   | None => None
   | Some (Return a) => Some (Return (tag a))
   | Some (Throw e) => Some (Throw e)
   end, snd r).

(** The call of generator [g]. *)
Definition run {parsing : Parsing} (g : Generator) (env : Env) (runtime : IAgentRuntime)
    (context : string) (modelClass : ModelClass) (fuel : nat) (w : World)
  : option (completion Parsed) * World :=
  match g with
  | ShouldRespondGen =>
      tagged PShouldRespond (generateShouldRespond env runtime context modelClass fuel w)
  | TrueOrFalseGen =>
      tagged PBoolean (generateTrueOrFalse env runtime context modelClass fuel w)
  | TextArrayGen =>
      tagged PArray (generateTextArray env runtime context modelClass fuel w)
  | ObjectArrayGen =>
      tagged PArray (generateObjectArray env runtime context modelClass fuel w)
  | MessageResponseGen =>
      tagged PContent (generateMessageResponse env runtime context modelClass fuel w)
  | TweetActionsGen =>
      tagged PActions (generateTweetActions env runtime context modelClass fuel w)
  end.

(** The delays of a loop that doubles from [first], after [n] waits. *)
Definition doubling (first : Z) (n : nat) : list Z :=
  map (fun i => first * 2 ^ Z.of_nat i) (seq 0 n).

(** The waits of generator [g] when [n] responses in a row did not
    parse: [generateMessageResponse] does not wait for them. *)
Definition expected_delays (g : Generator) (n : nat) : list Z :=
  match g with
  | MessageResponseGen => []
  | _ => doubling 1000 n
  end.

End TextGeneration.

(** ** generation.ts: image generation and captions *)

Module ImageGeneration.

(** The settings of an image model: what the code reads of the value
    that line 831 binds to [modelSettings]. *)
Record ImageModelSettings : Type := {
  name : string;
  steps : option Z
}.

(** The [data] argument of [generateImage]. *)
Record ImageRequest : Type := {
  prompt : string;
  width : Z;
  height : Z;
  count : option Z;
  negativePrompt : option string;
  numIterations : option Z;
  guidanceScale : option Q;
  seed : option Z;
  modelId : option string;
  jobId : option string;
  stylePreset : option string;
  hideWatermark : option bool;
  safeMode : option bool;
  cfgScale : option Q
}.

(** The value of [error] in a failed result: a message, or what was
    caught. *)
Inductive ErrorValue : Type :=
| Message (text : string)
| Caught (e : JsError).

(** [{ success, data?, error? }]. *)
Record ImageResult : Type := {
  success : bool;
  data : option (list JsValue);
  error : option ErrorValue
}.

Definition succeeded (entries : list JsValue) : ImageResult :=
  {| success := true; data := Some entries; error := None |}.

Definition failed (e : ErrorValue) : ImageResult :=
  {| success := false; data := None; error := Some e |}.

(** The JSON bodies that the branches post. *)
Inductive Body : Type :=
| HeuristBody (job_id : string) (prompt : string) (neg_prompt : option string)
    (num_iterations width height : Z) (guidance_scale : Q) (seed : Z)
    (model_id : string) (deadline priority : Z)
| VeniceBody (model prompt : string) (cfg_scale : option Q)
    (negative_prompt : option string) (width height : Z) (steps : option Z)
    (safe_mode : option bool) (seed : option Z) (style_preset : option string)
    (hide_watermark : option bool)
| NineteenBody (model prompt : string) (negative_prompt : option string)
    (width height : Z) (steps : option Z) (cfg_scale : Q)
| LivepeerBody (model_id prompt : string) (width height : Z).

Record FetchRequest : Type := {
  url : string;
  method : string;
  authorization : option string;
  body : option Body
}.

Definition GET (url : string) : FetchRequest :=
  {| url := url; method := "GET"; authorization := None; body := None |}.

Definition POST (url authorization : string) (body : Body) : FetchRequest :=
  {| url := url; method := "POST"; authorization := Some authorization;
     body := Some body |}.

(** What the code reads of a [Response]: [json] and [blob] are the
    outcomes of [await response.json()] and of
    [await (await response.blob()).arrayBuffer()]. *)
Record Response : Type := {
  ok : bool;
  statusText : string;
  json : completion JsValue;
  blob : completion (list Z)
}.

(** What the code reads of [new URL(...)]. *)
Record URL : Type := {
  protocol : string;
  href : string
}.

Record TogetherRequest : Type := {
  together_model : string;
  together_prompt : string;
  together_width : Z;
  together_height : Z;
  together_steps : Z;
  together_n : option Z
}.

(** [TogetherAIImageResponse] (lines 1308-1314), with the absences that
    the code tests for: [together_data] is [None] when [data] is missing or
    no array, and an image may lack its [url]. *)
Record TogetherImage : Type := { together_url : option string }.
Record TogetherAIImageResponse : Type := {
  together_data : option (list TogetherImage)
}.

(** The input of [fal.subscribe].  [safety_tolerance] is the string that
    the code hands to [Number]. *)
Record FalInput : Type := {
  fal_prompt : string;
  image_size : string;
  num_inference_steps : Z;
  fal_guidance_scale : Q;
  num_images : option Z;
  enable_safety_checker : bool;
  safety_tolerance : string;
  output_format : string;
  fal_seed : Z;
  loras : option string
}.

Record FalImage : Type := { fal_url : string; content_type : string }.
Record FalResult : Type := { fal_images : list FalImage }.

Record OpenAIRequest : Type := {
  openai_model : string;
  openai_prompt : string;
  size : string;
  n : option Z;
  response_format : string
}.

Record OpenAIImage : Type := { b64_json : option string }.
Record OpenAIResponse : Type := { openai_data : list OpenAIImage }.

(** [resp] of [describeImage]. *)
Record ImageDescription : Type := {
  title : string;
  description : string
}.

Inductive Event : Type :=
| EvFetch (request : FetchRequest)
| EvTogether (apiKey : option string) (request : TogetherRequest)
| EvFalConfig (credentials : option string)
| EvFalSubscribe (model : string) (input : FalInput)
| EvOpenAI (apiKey : string) (request : OpenAIRequest)
| EvDescribeImage (imageUrl : string).

Abbreviation World := (list Event).

(** What is decided outside of generation.ts: [crypto.randomUUID], the
    network, the [URL] parser, the provider SDKs, the encoder behind
    [Buffer.from(bytes).toString("base64")], the registered
    image-description service, and [firstRejected], the timing that
    [promise_all] depends on. *)
Record Env : Type := {
  randomUUID : string;
  fetch : FetchRequest -> completion Response;
  newURL : string -> completion URL;
  togetherImagesCreate : option string -> TogetherRequest -> completion TogetherAIImageResponse;
  falSubscribe : string -> FalInput -> completion FalResult;
  openaiImagesGenerate : string -> OpenAIRequest -> completion OpenAIResponse;
  toBase64 : list Z -> string;
  describeImage : string -> completion ImageDescription;
  firstRejected : nat -> nat
}.

(** [`${key}`] for a credential that may be [null]. *)
Definition show (key : option string) : string :=
  match key with Some k => k | None => "null" end.

(** [n || d] on numbers that need not be integers. *)
Definition qnum_or (n : option Q) (d : Q) : Q :=
  match n with
  | Some v => if Qeq_bool v 0 then d else v
  | None => d
  end.

(** The credential of an image request (lines 841-871). *)
Definition resolveApiKey (runtime : IAgentRuntime) : option string :=
  if bool_decide (imageModelProvider runtime = modelProvider runtime)
  then token runtime
  else
    match imageModelProvider runtime with
    | HEURIST => getSetting runtime "HEURIST_API_KEY"
    | TOGETHER => getSetting runtime "TOGETHER_API_KEY"
    | FAL => getSetting runtime "FAL_API_KEY"
    | OPENAI => getSetting runtime "OPENAI_API_KEY"
    | VENICE => getSetting runtime "VENICE_API_KEY"
    | LIVEPEER => getSetting runtime "LIVEPEER_GATEWAY_URL"
    | _ =>
        nullish (getSetting runtime "HEURIST_API_KEY")
       (nullish (getSetting runtime "NINETEEN_AI_API_KEY")
       (nullish (getSetting runtime "TOGETHER_API_KEY")
       (nullish (getSetting runtime "FAL_API_KEY")
       (nullish (getSetting runtime "OPENAI_API_KEY")
       (nullish (getSetting runtime "VENICE_API_KEY")
                (getSetting runtime "LIVEPEER_GATEWAY_URL"))))))
    end.

(** The sizes that the default branch lets through (lines 1163-1170). *)
Definition targetSize (data : ImageRequest) : string :=
  let targetSize := pretty (width data) +:+ "x" +:+ pretty (height data) in
  if negb (String.eqb targetSize "1024x1024")
     && negb (String.eqb targetSize "1792x1024")
     && negb (String.eqb targetSize "1024x1792")
  then "1024x1024"
  else targetSize.

Section Branches.
Variable env : Env.
Variable runtime : IAgentRuntime.
Variable data : ImageRequest.
Variable modelSettings : ImageModelSettings.
Variable apiKey : option string.

Let model : string := name modelSettings.

(** The [HEURIST] branch (lines 873-909). *)
Definition heurist_branch : M Event ImageResult :=
  let request :=
    POST "http://sequencer.heurist.xyz/submit_job" ("Bearer " +:+ show apiKey)
      (HeuristBody
         (match jobId data with
          | Some id => if truthy id then id else randomUUID env
          | None => randomUUID env
          end)
         (prompt data) (negativePrompt data)
         (num_or (numIterations data) 20)
         (num_or (Some (width data)) 512)
         (num_or (Some (height data)) 512)
         (qnum_or (guidanceScale data) 3)
         (num_or (seed data) (-1))
         model 60 1) in
  let* response := perform (EvFetch request) (fetch env request) in
  if negb (ok response)
  then throw (Error ("Heurist image generation failed: " +:+ statusText response))
  else
    let* imageURL := lift (json response) in
    ret (succeeded [imageURL]).

(** The [TOGETHER] and [LLAMACLOUD] branch (lines 910-967). *)
Definition together_branch : M Event ImageResult :=
  let request :=
    {| together_model := model; together_prompt := prompt data;
       together_width := width data; together_height := height data;
       together_steps := match steps modelSettings with Some n => n | None => 4 end;
       together_n := count data |} in
  let* togetherResponse :=
    perform (EvTogether apiKey request) (togetherImagesCreate env apiKey request) in
  match together_data togetherResponse with
  | None => throw (Error "Invalid response format from Together AI")
  | Some images =>
      let* base64s :=
        promise_all (firstRejected env)
          (fun image =>
             if negb (truthy_opt (together_url image))
             then throw (Error "Missing URL in Together AI response")
             else
               let imageUrl := show (together_url image) in
               let* imageResponse := perform (EvFetch (GET imageUrl)) (fetch env (GET imageUrl)) in
               if negb (ok imageResponse)
               then throw (Error ("Failed to fetch image: " +:+ statusText imageResponse))
               else
                 let* arrayBuffer := lift (blob imageResponse) in
                 let base64 := toBase64 env arrayBuffer in
                 ret ("data:image/jpeg;base64," +:+ base64))
          images in
      if Nat.eqb (length base64s) 0
      then throw (Error "No images generated by Together AI")
      else ret (succeeded (map JStr base64s))
  end.

(** The [FAL] branch (lines 968-1020). *)
Definition fal_branch : M Event ImageResult :=
  let* _ := emit (EvFalConfig apiKey) in
  let input :=
    {| fal_prompt := prompt data;
       image_size := "square";
       num_inference_steps := match steps modelSettings with Some n => n | None => 50 end;
       fal_guidance_scale := qnum_or (guidanceScale data) (7 # 2);
       num_images := count data;
       enable_safety_checker :=
         bool_decide (getSetting runtime "FAL_AI_ENABLE_SAFETY_CHECKER" = Some "true");
       safety_tolerance :=
         (if truthy_opt (getSetting runtime "FAL_AI_SAFETY_TOLERANCE")
          then show (getSetting runtime "FAL_AI_SAFETY_TOLERANCE") else "2");
       output_format := "png";
       fal_seed := match seed data with Some n => n | None => 6252023 end;
       loras :=
         (if truthy_opt (getSetting runtime "FAL_AI_LORA_PATH")
          then getSetting runtime "FAL_AI_LORA_PATH" else None) |} in
  let* result := perform (EvFalSubscribe model input) (falSubscribe env model input) in
  let* base64s :=
    promise_all (firstRejected env)
      (fun image =>
         let* response := perform (EvFetch (GET (fal_url image))) (fetch env (GET (fal_url image))) in
         let* buffer := lift (blob response) in
         let base64 := toBase64 env buffer in
         ret ("data:" +:+ content_type image +:+ ";base64," +:+ base64))
      (fal_images result) in
  ret (succeeded (map JStr base64s)).

(** The entries of the [VENICE] and [NINETEEN_AI] branches: each image
    of the reply after the prefix, an exception for a falsy one. *)
Definition png_entries (provider : string) (result : JsValue) : completion (list string) :=
  match getProp result "images" with
  | Throw e => Throw e
  | Return (JArr images) =>
      map_throwing
        (fun base64String =>
           if negb (truthy_value base64String)
           then Throw (Error ("Empty base64 string in " +:+ provider +:+ " response"))
           else Return ("data:image/png;base64," +:+ toString base64String))
        images
  | Return _ => Throw (Error ("Invalid response format from " +:+ provider))
  end.

(** The [VENICE] branch (lines 1021-1061). *)
Definition venice_branch : M Event ImageResult :=
  let request :=
    POST "https://api.venice.ai/api/v1/image/generate" ("Bearer " +:+ show apiKey)
      (VeniceBody model (prompt data) (guidanceScale data) (negativePrompt data)
         (width data) (height data) (numIterations data) (safeMode data) (seed data)
         (stylePreset data) (hideWatermark data)) in
  let* response := perform (EvFetch request) (fetch env request) in
  let* result := lift (json response) in
  let* base64s := lift (png_entries "Venice AI" result) in
  ret (succeeded (map JStr base64s)).

(** The [NINETEEN_AI] branch (lines 1062-1100). *)
Definition nineteen_branch : M Event ImageResult :=
  let request :=
    POST "https://api.nineteen.ai/v1/text-to-image" ("Bearer " +:+ show apiKey)
      (NineteenBody model (prompt data) (negativePrompt data)
         (width data) (height data) (numIterations data)
         (qnum_or (guidanceScale data) 3)) in
  let* response := perform (EvFetch request) (fetch env request) in
  let* result := lift (json response) in
  let* base64s := lift (png_entries "Nineteen AI" result) in
  ret (succeeded (map JStr base64s)).

(** [result.images] once [!result.images?.length] has let it through,
    for the [map] that follows. *)
Definition livepeer_images (result : JsValue) : completion (list JsValue) :=
  match getProp result "images" with
  | Throw e => Throw e
  | Return images =>
      match (match images with
             | JUndefined | JNull => Return JUndefined
             | _ => getProp images "length"
             end) with
      | Throw e => Throw e
      | Return len =>
          if negb (truthy_value len) then Throw (Error "No images generated")
          else
            match images with
            | JArr items => Return items
            | _ => Throw (TypeError "result.images.map is not a function")
            end
      end
  end.

(** [image.url.includes("http")] and the address that is fetched. *)
Definition livepeer_image_url (image : JsValue) : completion string :=
  match getProp image "url" with
  | Throw e => Throw e
  | Return (JStr u) =>
      if includes "http" u then Return u else Return (show apiKey +:+ u)
  | Return (JArr items) =>
      if existsb (fun item => match item with JStr s => String.eqb s "http" | _ => false end) items
      then Return (toString (JArr items))
      else Return (show apiKey +:+ toString (JArr items))
  | Return JUndefined =>
      Throw (TypeError "Cannot read properties of undefined (reading 'includes')")
  | Return JNull =>
      Throw (TypeError "Cannot read properties of null (reading 'includes')")
  | Return _ => Throw (TypeError "image.url.includes is not a function")
  end.

(** The [LIVEPEER] branch (lines 1101-1161), with its own [try]. *)
Definition livepeer_branch : M Event ImageResult :=
  if negb (truthy_opt apiKey) then throw (Error "Livepeer Gateway is not defined")
  else
    try_catch
      (let* baseUrl := lift (newURL env (show apiKey)) in
       if negb (startsWith "http" (protocol baseUrl))
       then throw (Error "Invalid Livepeer Gateway URL protocol")
       else
         let request :=
           POST (href baseUrl +:+ "text-to-image") "Bearer eliza-app-img"
             (LivepeerBody
                (match modelId data with
                 | Some id => if truthy id then id else "ByteDance/SDXL-Lightning"
                 | None => "ByteDance/SDXL-Lightning"
                 end)
                (prompt data)
                (num_or (Some (width data)) 1024)
                (num_or (Some (height data)) 1024)) in
         let* response := perform (EvFetch request) (fetch env request) in
         let* result := lift (json response) in
         let* images := lift (livepeer_images result) in
         let* base64Images :=
           promise_all (firstRejected env)
             (fun image =>
                let* imageUrl := lift (livepeer_image_url image) in
                let* imageResponse := perform (EvFetch (GET imageUrl)) (fetch env (GET imageUrl)) in
                if negb (ok imageResponse)
                then throw (Error ("Failed to fetch image: " +:+ statusText imageResponse))
                else
                  let* arrayBuffer := lift (blob imageResponse) in
                  let base64 := toBase64 env arrayBuffer in
                  ret ("data:image/jpeg;base64," +:+ base64))
             images in
         ret (succeeded (map JStr base64Images)))
      (fun error => ret (failed (Caught error))).

(** The last branch (lines 1162-1189), taken when no provider above
    matched. *)
Definition default_branch : M Event ImageResult :=
  let targetSize := targetSize data in
  let openaiApiKey := getSetting runtime "OPENAI_API_KEY" in
  if negb (truthy_opt openaiApiKey) then throw (Error "OPENAI_API_KEY is not set")
  else
    let request :=
      {| openai_model := model; openai_prompt := prompt data; size := targetSize;
         n := count data; response_format := "b64_json" |} in
    let* response :=
      perform (EvOpenAI (show openaiApiKey) request)
              (openaiImagesGenerate env (show openaiApiKey) request) in
    let base64s :=
      map (fun image =>
             "data:image/png;base64," +:+
             match b64_json image with Some s => s | None => "undefined" end)
          (openai_data response) in
    ret (succeeded (map JStr base64s)).

End Branches.

(** The branch of a provider (the chain of [if]s of lines 873-1162). *)
Inductive Branch : Type :=
| Heurist | Together | Fal | Venice | Nineteen | Livepeer | Default.

Definition branch_of (provider : ModelProviderName) : Branch :=
  match provider with
  | HEURIST => Heurist
  | TOGETHER | LLAMACLOUD => Together
  | FAL => Fal
  | VENICE => Venice
  | NINETEEN_AI => Nineteen
  | LIVEPEER => Livepeer
  | OPENAI | OtherProvider _ => Default
  end.

(** The chain of branches inside the [try] of [generateImage]. *)
Definition dispatch (env : Env) (data : ImageRequest) (runtime : IAgentRuntime)
    (modelSettings : ImageModelSettings) (apiKey : option string) : M Event ImageResult :=
  match branch_of (imageModelProvider runtime) with
  | Heurist => heurist_branch env data modelSettings apiKey
  | Together => together_branch env data modelSettings apiKey
  | Fal => fal_branch env runtime data modelSettings apiKey
  | Venice => venice_branch env data modelSettings apiKey
  | Nineteen => nineteen_branch env data modelSettings apiKey
  | Livepeer => livepeer_branch env data apiKey
  | Default => default_branch env runtime data modelSettings
  end.

(** The statements of [generateImage] that follow the evaluation of the
    name [getImageModelSettings] on line 831 (the rest of line 831 to
    line 1193), for a value [lookup] of that name. *)
Definition generateImage_from (lookup : ModelProviderName -> option ImageModelSettings)
    (env : Env) (data : ImageRequest) (runtime : IAgentRuntime) : M Event ImageResult :=
  match lookup (imageModelProvider runtime) with
  | None => ret (failed (Message "No model settings available"))
  | Some modelSettings =>
      let apiKey := resolveApiKey runtime in
      try_catch
        (dispatch env data runtime modelSettings apiKey)
        (fun error => ret (failed (Caught error)))
  end.

(** Line 831 calls [getImageModelSettings], a name that generation.ts
    neither imports (lines 1-42) nor declares: evaluating it raises a
    [ReferenceError]. *)
Definition getImageModelSettings
  : completion (ModelProviderName -> option ImageModelSettings) :=
  Throw (ReferenceError "getImageModelSettings is not defined").

(** [generateImage] (lines 807-1194).  Line 831 comes before the [try]
    that opens on line 872, so its exception is the outcome of the
    call. *)
Definition generateImage (env : Env) (data : ImageRequest) (runtime : IAgentRuntime)
  : M Event ImageResult :=
  match getImageModelSettings with
  | Throw e => throw e
  | Return lookup => generateImage_from lookup env data runtime
  end.



(** *** The words of the specification *)

(** The providers with a branch of their own in [generateImage]. *)
Definition explicit_providers : list ModelProviderName :=
  [HEURIST; TOGETHER; LLAMACLOUD; FAL; VENICE; NINETEEN_AI; LIVEPEER].

(** The sizes that the default provider accepts. *)
Definition allowed_sizes : list (Z * Z) := [(1024, 1024); (1792, 1024); (1024, 1792)].




(** [data:<mime>;base64,<payload>]. *)
Definition data_url (mime payload : string) : JsValue :=
  JStr ("data:" +:+ mime +:+ ";base64," +:+ payload).

(** An entry that matches the pattern, with a payload that is not
    empty. *)
Definition is_data_url (entry : JsValue) : Prop :=
  exists mime payload, payload <> "" /\ entry = data_url mime payload.

End ImageGeneration.

(** ** keypairUtils.ts: loading the wallet key *)

Module KeypairUtils.

(** The libraries behind keypairUtils.ts: [bs58.decode], which throws on
    a string that is not base58; [Buffer.from(s, 'base64')], which does
    not throw; [Keypair.fromSecretKey] and [new PublicKey], which throw
    on bytes or on a string that they do not accept. *)
Class Libraries : Type := {
  Keypair : Type;
  PublicKey : Type;
  bs58_decode : string -> completion (list Z);
  Buffer_from_base64 : string -> list Z;
  Keypair_fromSecretKey : list Z -> completion Keypair;
  new_PublicKey : string -> completion PublicKey
}.

(** [KeypairResult]. *)
Record KeypairResult {libraries : Libraries} : Type := {
  keypair : option Keypair;
  publicKey : option PublicKey
}.

(** The one effect that matters here: a setting is read. *)
Inductive Event : Type := EvGetSetting (key : string).

Definition readSetting (runtime : IAgentRuntime) (key : string) : M Event (option string) :=
  perform (EvGetSetting key) (Return (getSetting runtime key)).

(** [runtime.getSetting(first) ?? runtime.getSetting(second)]: the second
    setting is read only when the first is null. *)
Definition readEither (runtime : IAgentRuntime) (first second : string)
  : M Event (option string) :=
  let* value := readSetting runtime first in
  match value with
  | Some _ => ret value
  | None => readSetting runtime second
  end.

(** [getWalletKey] (lines 16-57). *)
Definition getWalletKey {libraries : Libraries} (runtime : IAgentRuntime)
    (requirePrivateKey : bool) : M Event KeypairResult :=
  if requirePrivateKey then
    let* privateKeyString := readEither runtime "SOLANA_PRIVATE_KEY" "WALLET_PRIVATE_KEY" in
    match privateKeyString with
    | None | Some EmptyString => throw (Error "Private key not found in settings")
    | Some privateKeyString =>
        try_catch
          (let* secretKey := lift (bs58_decode privateKeyString) in
           let* pair := lift (Keypair_fromSecretKey secretKey) in
           ret {| keypair := Some pair; publicKey := None |})
          (fun e =>
             try_catch
               (let secretKey := Buffer_from_base64 privateKeyString in
                let* pair := lift (Keypair_fromSecretKey secretKey) in
                ret {| keypair := Some pair; publicKey := None |})
               (fun e2 => throw (Error "Invalid private key format")))
    end
  else
    let* publicKeyString := readEither runtime "SOLANA_PUBLIC_KEY" "WALLET_PUBLIC_KEY" in
    match publicKeyString with
    | None | Some EmptyString =>
        throw (Error "Solana Public key not found in settings, but plugin was loaded, please set SOLANA_PUBLIC_KEY")
    | Some publicKeyString =>
        let* key := lift (new_PublicKey publicKeyString) in
        ret {| keypair := None; publicKey := Some key |}
    end.

(** The private key string that [getWalletKey] works with. *)
Definition privateKeyString (runtime : IAgentRuntime) : option string :=
  nullish (getSetting runtime "SOLANA_PRIVATE_KEY") (getSetting runtime "WALLET_PRIVATE_KEY").

(** The public key string that [getWalletKey] works with. *)
Definition publicKeyString (runtime : IAgentRuntime) : option string :=
  nullish (getSetting runtime "SOLANA_PUBLIC_KEY") (getSetting runtime "WALLET_PUBLIC_KEY").

(** The first attempt: the string read as base58. *)
Definition base58_keypair {libraries : Libraries} (s : string) : completion Keypair :=
  match bs58_decode s with
  | Return secretKey => Keypair_fromSecretKey secretKey
  | Throw e => Throw e
  end.

(** The second attempt: the string read as base64. *)
Definition base64_keypair {libraries : Libraries} (s : string) : completion Keypair :=
  Keypair_fromSecretKey (Buffer_from_base64 s).

End KeypairUtils.

(** ** Concrete collaborators for the examples *)

Module Samples.
Import TextGeneration.

(** Small parsers in the place of parsing.ts. *)
Definition sample_parsing : Parsing := {|
  Content := JsValue;
  ActionResponse := list string;
  parseShouldRespondFromText := fun s =>
    if String.eqb s "RESPOND" then Some RESPOND
    else if String.eqb s "IGNORE" then Some IGNORE
    else if String.eqb s "STOP" then Some STOP
    else None;
  parseBooleanFromText := fun s =>
    if String.eqb s "true" then Some true
    else if String.eqb s "false" then Some false
    else None;
  parseJsonArrayFromText := fun s => if String.eqb s "[]" then Some [] else None;
  parseJSONObjectFromText := fun s => if String.eqb s "{}" then Some (JObj []) else None;
  parseActionResponseFromText := fun s =>
    if includes "[LIKE]" s then Some ["like"] else None
|}.

Definition sample_character : Character :=
  {| system := None; modelEndpointOverride := None |}.

Definition sample_runtime : IAgentRuntime := {|
  modelProvider := OtherProvider "deepseek";
  imageModelProvider := OPENAI;
  token := Some "sk-text";
  character := sample_character;
  settings := {[ "OPENAI_API_KEY" := "sk-openai" ]};
  defaultModel := "deepseek-chat";
  verifiableInferenceAdapter := false;
  hasService := fun _ => false
|}.

(** A provider that answers the first requests by [replies], in order,
    and every later one by [last]. *)
Definition scripted (replies : list string) (last : string) : Env := {|
  SYSTEM_PROMPT := None;
  VERIFIABLE_INFERENCE_ENABLED := None;
  aiGenerateText := fun k _ => Return (nth k replies last);
  adapterGenerateText := fun _ _ _ => Throw (Error "no adapter");
  adapterVerifyProof := fun _ _ => Return false
|}.

(** A table of image models with the same settings for every
    provider. *)
Definition sample_lookup (provider : ModelProviderName)
  : option ImageGeneration.ImageModelSettings :=
  Some {| ImageGeneration.name := "sample-image-model"; ImageGeneration.steps := None |}.

(** Image collaborators: a Heurist sequencer that answers with the
    address of the image, and an OpenAI endpoint that answers with one
    encoded image. *)
Definition sample_image_env : ImageGeneration.Env := {|
  ImageGeneration.randomUUID := "123e4567-e89b-42d3-a456-426614174000";
  ImageGeneration.fetch := fun request =>
    if String.eqb (ImageGeneration.url request) "http://sequencer.heurist.xyz/submit_job"
    then Return {| ImageGeneration.ok := true;
                   ImageGeneration.statusText := "OK";
                   ImageGeneration.json := Return (JStr "https://heurist.example/image.png");
                   ImageGeneration.blob := Return [] |}
    else Throw (TypeError "fetch failed");
  ImageGeneration.newURL := fun _ => Throw (TypeError "Invalid URL");
  ImageGeneration.togetherImagesCreate := fun _ _ => Throw (Error "connection refused");
  ImageGeneration.falSubscribe := fun _ _ => Throw (Error "connection refused");
  ImageGeneration.openaiImagesGenerate := fun _ _ =>
    Return {| ImageGeneration.openai_data :=
                [{| ImageGeneration.b64_json := Some "iVBORw0KGgo=" |}] |};
  ImageGeneration.toBase64 := fun _ => "";
  ImageGeneration.describeImage := fun _ =>
    Return {| ImageGeneration.title := "  A cat ";
              ImageGeneration.description := String "010" "A cat on a mat. " |};
  ImageGeneration.firstRejected := fun _ => 0%nat
|}.

Definition sample_request (width height : Z) : ImageGeneration.ImageRequest := {|
  ImageGeneration.prompt := "a cat on a mat";
  ImageGeneration.width := width;
  ImageGeneration.height := height;
  ImageGeneration.count := Some 1;
  ImageGeneration.negativePrompt := None;
  ImageGeneration.numIterations := None;
  ImageGeneration.guidanceScale := None;
  ImageGeneration.seed := None;
  ImageGeneration.modelId := None;
  ImageGeneration.jobId := None;
  ImageGeneration.stylePreset := None;
  ImageGeneration.hideWatermark := None;
  ImageGeneration.safeMode := None;
  ImageGeneration.cfgScale := None
|}.

(** A runtime whose image provider is Heurist, with a Together key and
    no Heurist key. *)
Definition heurist_runtime : IAgentRuntime := {|
  modelProvider := OtherProvider "deepseek";
  imageModelProvider := HEURIST;
  token := Some "sk-text";
  character := sample_character;
  settings := {[ "TOGETHER_API_KEY" := "tk-together" ]};
  defaultModel := "deepseek-chat";
  verifiableInferenceAdapter := false;
  hasService := fun _ => false
|}.

(** A runtime with the image-description service. *)
Definition caption_runtime : IAgentRuntime := {|
  modelProvider := OtherProvider "deepseek";
  imageModelProvider := OPENAI;
  token := Some "sk-text";
  character := sample_character;
  settings := ∅;
  defaultModel := "deepseek-chat";
  verifiableInferenceAdapter := false;
  hasService := fun service =>
    match service with IMAGE_DESCRIPTION => true | OtherService _ => false end
|}.

(** Libraries in the place of bs58 and @solana/web3.js.  They reject
    what the real ones reject first: a character outside of the base58
    alphabet, and a secret key that is not 64 bytes long. *)
Definition base58_alphabet : string :=
  "123456789ABCDEFGHJKLMNPQRSTUVWXYZabcdefghijkmnopqrstuvwxyz".

Fixpoint all_base58 (s : string) : bool :=
  match s with
  | EmptyString => true
  | String c rest => occurs c base58_alphabet && all_base58 rest
  end.

Definition code_units (s : string) : list Z :=
  map (fun c => Z.of_nat (nat_of_ascii c)) (list_ascii_of_string s).

Definition sample_libraries : KeypairUtils.Libraries := {|
  KeypairUtils.Keypair := list Z;
  KeypairUtils.PublicKey := string;
  KeypairUtils.bs58_decode := fun s =>
    if all_base58 s then Return (code_units s) else Throw (Error "Non-base58 character");
  KeypairUtils.Buffer_from_base64 := code_units;
  KeypairUtils.Keypair_fromSecretKey := fun bytes =>
    if Nat.eqb (length bytes) 64 then Return bytes else Throw (Error "bad secret key size");
  KeypairUtils.new_PublicKey := fun s =>
    if all_base58 s then Return s else Throw (Error "Non-base58 character")
|}.

(** A runtime whose public key setting is no base58 string. *)
Definition wallet_runtime : IAgentRuntime := {|
  modelProvider := OtherProvider "deepseek";
  imageModelProvider := OPENAI;
  token := None;
  character := sample_character;
  settings := {[ "SOLANA_PUBLIC_KEY" := "not-a-key!" ]};
  defaultModel := "deepseek-chat";
  verifiableInferenceAdapter := false;
  hasService := fun _ => false
|}.

End Samples.

(** ** Counting the attempts that raised *)

Module TextMore.
Import TextGeneration.

(** The number of calls of [generateText] that raise among the [n]
    calls from number [start] on. *)
Fixpoint throws_in (env : Env) (runtime : IAgentRuntime) (context : string)
    (modelClass : ModelClass) (start n : nat) : nat :=
  match n with
  | O => O
  | S n' =>
      (if is_throw (response env runtime context modelClass start) then 1 else 0)
      + throws_in env runtime context modelClass (S start) n'
  end.

(** Whether an event is a request to the provider SDK. *)
Definition is_sdk_request (ev : Event) : bool :=
  match ev with EvAiGenerateText _ => true | _ => false end.

End TextMore.

(** ** The settings of the wallet key *)

Module WalletMore.

(** The setting that [getWalletKey] reads first. *)
Definition first_setting (requirePrivateKey : bool) : string :=
  if requirePrivateKey then "SOLANA_PRIVATE_KEY" else "SOLANA_PUBLIC_KEY".

End WalletMore.

(** ** More of JavaScript's strings and arrays *)

Module JsMore.

(** [l.slice(start)]: a negative [start] counts from the end, and both
    ends are clamped. *)
Definition slice_from {A : Type} (start : Z) (l : list A) : list A :=
  let len := Z.of_nat (length l) in
  let from := if start <? 0 then Z.max (len + start) 0 else Z.min start len in
  skipn (Z.to_nat from) l.

(** [s.slice(start)]. *)
Definition string_slice (start : Z) (s : string) : string :=
  string_of_list_ascii (slice_from start (list_ascii_of_string s)).

Fixpoint string_drop (n : nat) (s : string) : string :=
  match n, s with
  | O, _ => s
  | S n', String _ rest => string_drop n' rest
  | S _, EmptyString => EmptyString
  end.

(** [s.replace(p, r)] for a string pattern [p] and a replacement [r]
    without [$]: the first occurrence of [p] is replaced. *)
Fixpoint replace_first (p r s : string) : string :=
  if startsWith p s then r +:+ string_drop (String.length p) s
  else match s with
       | EmptyString => EmptyString
       | String c rest => String c (replace_first p r rest)
       end.

(** The lower case of a code unit below U+0100: the letters A-Z and
    the letters U+00C0-U+00DE other than the multiplication sign. *)
Definition lower_char (c : ascii) : ascii :=
  let n := nat_of_ascii c in
  if ((65 <=? n) && (n <=? 90))%nat
     || ((192 <=? n) && (n <=? 222) && negb (n =? 215))%nat
  then ascii_of_nat (n + 32)
  else c.

(** [s.toLowerCase()]. *)
Fixpoint toLowerCase (s : string) : string :=
  match s with
  | EmptyString => EmptyString
  | String c rest => String (lower_char c) (toLowerCase rest)
  end.

Arguments replace_first : simpl never.

End JsMore.
Export JsMore.

(** ** generation.ts: trimming a context to a token budget *)

Module Tokens.

(** What the code uses of a tokenizer, of js-tiktoken or of
    @huggingface/transformers alike. *)
Record Tokenizer : Type := {
  encode : string -> completion (list Z);
  decode : list Z -> completion string
}.

(** The two loaders, and the two members of [TokenizerType] (types.ts)
    that [trimTokens] compares the setting with. *)
Record Env : Type := {
  TokenizerType_Auto : string;
  TokenizerType_TikToken : string;
  from_pretrained : string -> completion Tokenizer;
  encodingForModel : string -> completion Tokenizer
}.

(** The effects: a tokenizer is loaded. *)
Inductive Event : Type :=
| EvFromPretrained (modelPath : string)
| EvEncodingForModel (model : string).

(** [truncateAuto] (lines 111-135). *)
Definition truncateAuto (env : Env) (modelPath context : string) (maxTokens : Z)
  : M Event string :=
  try_catch
    (let* tokenizer := perform (EvFromPretrained modelPath) (from_pretrained env modelPath) in
     let* tokens := lift (encode tokenizer context) in
     if Z.of_nat (length tokens) <=? maxTokens then ret context
     else
       let truncatedTokens := slice_from (- maxTokens) tokens in
       lift (decode tokenizer truncatedTokens))
    (fun error => ret (string_slice (- maxTokens * 4) context)).

(** [truncateTiktoken] (lines 137-163). *)
Definition truncateTiktoken (env : Env) (model context : string) (maxTokens : Z)
  : M Event string :=
  try_catch
    (let* encoding := perform (EvEncodingForModel model) (encodingForModel env model) in
     let* tokens := lift (encode encoding context) in
     if Z.of_nat (length tokens) <=? maxTokens then ret context
     else
       let truncatedTokens := slice_from (- maxTokens) tokens in
       lift (decode encoding truncatedTokens))
    (fun error => ret (string_slice (- maxTokens * 4) context)).

(** [trimTokens] (lines 77-109). *)
Definition trimTokens (env : Env) (context : string) (maxTokens : Z)
    (runtime : IAgentRuntime) : M Event string :=
  if negb (truthy context) then ret ""
  else if maxTokens <=? 0 then throw (Error "maxTokens must be positive")
  else
    let tokenizerModel := getSetting runtime "TOKENIZER_MODEL" in
    let tokenizerType := getSetting runtime "TOKENIZER_TYPE" in
    match tokenizerModel, tokenizerType with
    | Some (String m ms), Some (String t ts) =>
        let tokenizerModel := String m ms in
        let tokenizerType := String t ts in
        if String.eqb tokenizerType (TokenizerType_Auto env)
        then truncateAuto env tokenizerModel context maxTokens
        else if String.eqb tokenizerType (TokenizerType_TikToken env)
        then truncateTiktoken env tokenizerModel context maxTokens
        else truncateTiktoken env "gpt-4o" context maxTokens
    | _, _ => truncateTiktoken env "gpt-4o" context maxTokens
    end.

(** *** The budget in words *)

(** The tokenizer that is loaded for the settings of a runtime: the one
    of [TOKENIZER_MODEL], from the loader that [TOKENIZER_TYPE] names,
    when both settings are there and not empty and the type is one of the
    two known ones; the js-tiktoken encoding of gpt-4o in every other
    case. *)
Definition expected_load (env : Env) (runtime : IAgentRuntime) : Event :=
  let model := default "" (getSetting runtime "TOKENIZER_MODEL") in
  let type := default "" (getSetting runtime "TOKENIZER_TYPE") in
  if truthy model && truthy type && String.eqb type (TokenizerType_Auto env)
  then EvFromPretrained model
  else if truthy model && truthy type && String.eqb type (TokenizerType_TikToken env)
  then EvEncodingForModel model
  else EvEncodingForModel "gpt-4o".

(** What a load answers. *)
Definition tokenizer_of (env : Env) (ev : Event) : completion Tokenizer :=
  match ev with
  | EvFromPretrained modelPath => from_pretrained env modelPath
  | EvEncodingForModel model => encodingForModel env model
  end.

(** [kept] is the last [maxTokens] tokens of [tokens]. *)
Definition last_tokens (tokens : list Z) (maxTokens : Z) (kept : list Z) : Prop :=
  exists dropped, tokens = dropped ++ kept /\ Z.of_nat (length kept) = maxTokens.

(** [s] is the end of [context]: its last [4 * maxTokens] code units,
    or all of it when it has fewer. *)
Definition rough_cut (context : string) (maxTokens : Z) (s : string) : Prop :=
  exists dropped,
    context = dropped +:+ s
    /\ Z.of_nat (String.length s) = Z.min (Z.of_nat (String.length context)) (4 * maxTokens).

(** The result [s] of trimming [context] to [maxTokens] tokens with the
    outcome [tokenizer] of the load.  With a tokenizer that encodes the
    context into at most [maxTokens] tokens it is the context; with more
    tokens it is the decoding of the last [maxTokens] of them; and when
    the load, the encoding or the decoding failed it is the rough cut. *)
Definition trimmed_to (tokenizer : completion Tokenizer) (context : string)
    (maxTokens : Z) (s : string) : Prop :=
  match tokenizer with
  | Throw _ => rough_cut context maxTokens s
  | Return tokenizer =>
      match encode tokenizer context with
      | Throw _ => rough_cut context maxTokens s
      | Return tokens =>
          if Z.of_nat (length tokens) <=? maxTokens then s = context
          else
            exists kept,
              last_tokens tokens maxTokens kept
              /\ match decode tokenizer kept with
                 | Return text => s = text
                 | Throw _ => rough_cut context maxTokens s
                 end
      end
  end.

End Tokens.

(** ** generation.ts: the Cloudflare gateway and the on-chain prompt *)

Module Gateway.

(** [`${value}`] for a setting that is there. *)
Definition show_setting (value : option string) : string :=
  match value with Some v => v | None => "null" end.

(** [getCloudflareGatewayBaseURL] (lines 274-318). *)
Definition getCloudflareGatewayBaseURL (runtime : IAgentRuntime) (provider : string)
  : option string :=
  let isCloudflareEnabled :=
    bool_decide (getSetting runtime "CLOUDFLARE_GW_ENABLED" = Some "true") in
  let cloudflareAccountId := getSetting runtime "CLOUDFLARE_AI_ACCOUNT_ID" in
  let cloudflareGatewayId := getSetting runtime "CLOUDFLARE_AI_GATEWAY_ID" in
  if negb isCloudflareEnabled then None
  else if negb (truthy_opt cloudflareAccountId) then None
  else if negb (truthy_opt cloudflareGatewayId) then None
  else
    Some ("https://gateway.ai.cloudflare.com/v1/" +:+ show_setting cloudflareAccountId
          +:+ "/" +:+ show_setting cloudflareGatewayId
          +:+ "/" +:+ toLowerCase provider).

(** What the code reads of the [Response] of a [GET]: [text] is the
    outcome of [await response.text()]. *)
Record TextResponse : Type := {
  ok : bool;
  text : completion string
}.

(** The effect: an address is fetched with [GET]. *)
Inductive Event : Type := EvGet (url : string).

Definition IPFS : string := "ipfs://".

(** [fetchEternalAISystemPrompt] (lines 230-266); [fetch] is the
    network. *)
Definition fetchEternalAISystemPrompt (fetch : string -> completion TextResponse)
    (content : string) : M Event string :=
  let containsSubstring := includes IPFS content in
  if containsSubstring then
    let lightHouse :=
      replace_first IPFS "https://gateway.lighthouse.storage/ipfs/" content in
    let* responseLH := perform (EvGet lightHouse) (fetch lightHouse) in
    if ok responseLH then lift (text responseLH)
    else
      let gcs := replace_first IPFS "https://cdn.eternalai.org/upload/" content in
      let* responseGCS := perform (EvGet gcs) (fetch gcs) in
      if ok responseGCS then lift (text responseGCS)
      else throw (Error "invalid on-chain system prompt")
  else ret content.

End Gateway.

(** ** More concrete collaborators *)

Module MoreSamples.
Import Samples.

(** A tokenizer with one token for every code unit. *)
Definition unit_tokenizer : Tokens.Tokenizer := {|
  Tokens.encode := fun s => Return (code_units s);
  Tokens.decode := fun tokens =>
    Return (string_of_list_ascii (map (fun t => ascii_of_nat (Z.to_nat t)) tokens))
|}.

Definition sample_tokens : Tokens.Env := {|
  Tokens.TokenizerType_Auto := "auto";
  Tokens.TokenizerType_TikToken := "tiktoken";
  Tokens.from_pretrained := fun _ => Throw (Error "model not found");
  Tokens.encodingForModel := fun _ => Return unit_tokenizer
|}.

(** A runtime with a verifiable-inference adapter, and an adapter whose
    proofs check. *)
Definition verified_runtime : IAgentRuntime := {|
  modelProvider := OtherProvider "deepseek";
  imageModelProvider := OPENAI;
  token := Some "sk-text";
  character := sample_character;
  settings := ∅;
  defaultModel := "deepseek-chat";
  verifiableInferenceAdapter := true;
  hasService := fun _ => false
|}.

Definition verifying_env : TextGeneration.Env := {|
  TextGeneration.SYSTEM_PROMPT := None;
  TextGeneration.VERIFIABLE_INFERENCE_ENABLED := Some "true";
  TextGeneration.aiGenerateText := fun _ _ => Return "unverified";
  TextGeneration.adapterGenerateText := fun _ _ _ =>
    Return {| TextGeneration.text := "verified"; TextGeneration.proof := "proof" |};
  TextGeneration.adapterVerifyProof := fun _ _ => Return true
|}.

(** A provider whose first answer is an exception, followed by the
    answers of [replies] and then by [last]. *)
Definition failing_first (replies : list string) (last : string) : TextGeneration.Env := {|
  TextGeneration.SYSTEM_PROMPT := None;
  TextGeneration.VERIFIABLE_INFERENCE_ENABLED := None;
  TextGeneration.aiGenerateText := fun k _ =>
    match k with
    | O => Throw (Error "socket hang up")
    | S k' => Return (nth k' replies last)
    end;
  TextGeneration.adapterGenerateText := fun _ _ _ => Throw (Error "no adapter");
  TextGeneration.adapterVerifyProof := fun _ _ => Return false
|}.

(** Image providers that answer: an image service with one picture of
    three bytes, Together with the address of that picture, and Venice
    with one encoded image. *)
Definition gallery_env : ImageGeneration.Env := {|
  ImageGeneration.randomUUID := "123e4567-e89b-42d3-a456-426614174000";
  ImageGeneration.fetch := fun request =>
    if String.eqb (ImageGeneration.url request) "https://img.example/1.jpg"
    then Return {| ImageGeneration.ok := true;
                   ImageGeneration.statusText := "OK";
                   ImageGeneration.json := Throw (Error "Unexpected token");
                   ImageGeneration.blob := Return [1; 2; 3] |}
    else Return {| ImageGeneration.ok := false;
                   ImageGeneration.statusText := "Unauthorized";
                   ImageGeneration.json :=
                     Return (JObj [("images", JArr [JStr "aGVsbG8="])]);
                   ImageGeneration.blob := Return [] |};
  ImageGeneration.newURL := fun _ => Throw (TypeError "Invalid URL");
  ImageGeneration.togetherImagesCreate := fun _ _ =>
    Return {| ImageGeneration.together_data :=
                Some [{| ImageGeneration.together_url := Some "https://img.example/1.jpg" |}] |};
  ImageGeneration.falSubscribe := fun _ _ => Throw (Error "connection refused");
  ImageGeneration.openaiImagesGenerate := fun _ _ =>
    Return {| ImageGeneration.openai_data :=
                [{| ImageGeneration.b64_json := Some "iVBORw0KGgo=" |};
                 {| ImageGeneration.b64_json := None |}] |};
  ImageGeneration.toBase64 := fun _ => "AQID";
  ImageGeneration.describeImage := fun _ => Throw (Error "no service");
  ImageGeneration.firstRejected := fun _ => 0%nat
|}.

(** A runtime with the image provider [provider] and the settings
    [values]. *)
Definition image_runtime (provider : ModelProviderName) (values : gmap string string)
  : IAgentRuntime := {|
  modelProvider := OtherProvider "deepseek";
  imageModelProvider := provider;
  token := Some "sk-text";
  character := sample_character;
  settings := values;
  defaultModel := "deepseek-chat";
  verifiableInferenceAdapter := false;
  hasService := fun _ => false
|}.

End MoreSamples.

(** * Properties *)

(** ** Strings *)

Section StringFacts.

Lemma append_cons (c : ascii) (a b : string) : String c a +:+ b = String c (a +:+ b).
Proof. reflexivity. Qed.

Lemma append_nil (b : string) : "" +:+ b = b.
Proof. reflexivity. Qed.

Lemma all_white_space_app (a b : string) :
  all_white_space (a +:+ b) = all_white_space a && all_white_space b.
Proof.
  induction a as [|c a IH]; [reflexivity|].
  rewrite append_cons. simpl. rewrite IH. now rewrite andb_assoc.
Qed.

Lemma trimStart_spec (s : string) :
  starts_with_white_space (trimStart s) = false
  /\ exists pre, s = pre +:+ trimStart s /\ all_white_space pre = true.
Proof.
  induction s as [|c s [IHstart (pre & IHeq & IHpre)]]; simpl.
  - split; [reflexivity|]. exists "". auto.
  - destruct (is_white_space c) eqn:Hc.
    + split; [exact IHstart|]. exists (String c pre).
      rewrite append_cons, <- IHeq. simpl. rewrite Hc, IHpre. auto.
    + simpl. rewrite Hc. split; [reflexivity|]. exists "". auto.
Qed.

Lemma trimEnd_spec (s : string) :
  ends_with_white_space (trimEnd s) = false
  /\ starts_with_white_space (trimEnd s)
     = starts_with_white_space s && negb (all_white_space s)
  /\ exists post, s = trimEnd s +:+ post /\ all_white_space post = true.
Proof.
  induction s as [|c s (IHend & IHstart & post & IHeq & IHpost)]; simpl.
  - repeat split. exists "". auto.
  - destruct (trimEnd s) as [|c' kept] eqn:Hkept.
    + assert (Hwhite : all_white_space s = true).
      { rewrite IHeq, append_nil. exact IHpost. }
      rewrite Hwhite, andb_true_r.
      destruct (is_white_space c) eqn:Hc; simpl.
      * repeat split. exists (String c s). rewrite append_nil. simpl.
        now rewrite Hc, Hwhite.
      * rewrite Hc. repeat split. exists s. split; [reflexivity|exact Hwhite].
    + assert (Hnot : all_white_space s = false).
      { destruct (all_white_space s) eqn:Hall; [|reflexivity].
        simpl in IHstart. rewrite andb_false_r in IHstart.
        rewrite IHeq, all_white_space_app in Hall. simpl in Hall.
        rewrite IHstart in Hall. discriminate. }
      rewrite Hnot, andb_false_r, andb_true_r.
      split; [|split].
      * simpl. exact IHend.
      * reflexivity.
      * exists post. rewrite append_cons, <- IHeq. auto.
Qed.

(** [trim] takes a run of white space off each end and leaves none
    there. *)
Lemma trim_spec (s : string) :
  starts_with_white_space (trim s) = false
  /\ ends_with_white_space (trim s) = false
  /\ exists pre post,
       s = pre +:+ trim s +:+ post
       /\ all_white_space pre = true /\ all_white_space post = true.
Proof.
  unfold trim.
  destruct (trimStart_spec s) as (Hstart & pre & Hs & Hpre).
  destruct (trimEnd_spec (trimStart s)) as (Hend & Hkeep & post & Ht & Hpost).
  split; [|split; [exact Hend|]].
  - rewrite Hkeep, Hstart. reflexivity.
  - exists pre, post. rewrite <- Ht. auto.
Qed.

End StringFacts.

(** ** The single-shot text call *)

Section TextFacts.
Import TextGeneration.
Context {parsing : Parsing}.
Variable env : Env.
Variable runtime : IAgentRuntime.

Lemma calls_app (w1 w2 : World) : calls (w1 ++ w2) = (calls w1 + calls w2)%nat.
Proof. unfold calls. now rewrite List.filter_app, length_app. Qed.

Lemma contacts_app (w1 w2 : World) : contacts (w1 ++ w2) = (contacts w1 + contacts w2)%nat.
Proof. unfold contacts. now rewrite List.filter_app, length_app. Qed.

Lemma delays_app (w1 w2 : World) : delays (w1 ++ w2) = delays w1 ++ delays w2.
Proof.
  induction w1 as [|ev w1 IH]; simpl; [reflexivity|].
  destruct ev; simpl; now rewrite ?IH.
Qed.

Lemma sum_app (l1 l2 : list Z) :
  fold_right Z.add 0 (l1 ++ l2) = fold_right Z.add 0 l1 + fold_right Z.add 0 l2.
Proof. induction l1 as [|d l IH]; simpl; [reflexivity|]. rewrite IH. lia. Qed.

Lemma total_delay_app (w1 w2 : World) :
  total_delay (w1 ++ w2) = total_delay w1 + total_delay w2.
Proof. unfold total_delay. now rewrite delays_app, sum_app. Qed.

(** A call of [generateText] extends the world by its own mark and by
    requests to the collaborators, and what it yields does not depend on
    the world it starts from. *)
Lemma generateText_at_extends context modelClass maxSteps vi attempt (w : World) :
  exists evs,
    generateText_at env runtime context modelClass maxSteps vi attempt w
    = (fst (generateText_at env runtime context modelClass maxSteps vi attempt []),
       w ++ EvGenerateText context :: evs)
    /\ calls evs = 0%nat /\ delays evs = []
    /\ (truthy context = false -> evs = []).
Proof.
  unfold generateText_at, bind, emit, perform, try_catch, lift, ret, throw; simpl.
  destruct (truthy context); simpl.
  2: { exists []. repeat split; reflexivity. }
  destruct (_ && _); simpl.
  - destruct (adapterGenerateText env attempt context modelClass) as [result|e]; simpl.
    + destruct (adapterVerifyProof env attempt result) as [[|]|e]; simpl;
        (eexists; rewrite <- ?app_assoc; simpl; split; [reflexivity|];
         repeat split; try reflexivity; discriminate).
    + eexists; rewrite <- ?app_assoc; simpl; split; [reflexivity|].
      repeat split; try reflexivity; discriminate.
  - match goal with |- context [aiGenerateText env attempt ?r] =>
      destruct (aiGenerateText env attempt r) end; simpl;
      (eexists; rewrite <- ?app_assoc; simpl; split; [reflexivity|];
       repeat split; try reflexivity; discriminate).
Qed.
(** One call of [generateText] by a retrying generator: it yields
    [response] at the number of earlier calls, counts as one call and does
    not wait. *)
Lemma generateText_step context modelClass (w : World) :
  exists w',
    generateText env runtime context modelClass None None w
    = (response env runtime context modelClass (calls w), w')
    /\ calls w' = S (calls w) /\ delays w' = delays w
    /\ (truthy context = false -> w' = w ++ [EvGenerateText context]).
Proof.
  unfold generateText, response.
  destruct (generateText_at_extends context modelClass None None (calls w) w)
    as (evs & -> & Hcalls & Hdelays & Hempty).
  eexists. split; [reflexivity|].
  rewrite calls_app, delays_app. simpl. unfold calls in *. simpl.
  fold (calls w). unfold calls in Hcalls. rewrite Hcalls, Hdelays, app_nil_r.
  repeat split; [lia|]. intros H. now rewrite (Hempty H).
Qed.

Lemma attempt_of_step {A : Type} (parse : string -> option A) context modelClass (w : World) :
  exists w',
    attempt_of env runtime parse context modelClass w
    = (Return (outcome env runtime parse context modelClass (calls w)), w')
    /\ calls w' = S (calls w) /\ delays w' = delays w.
Proof.
  unfold attempt_of, outcome, try_catch, bind, ret.
  destruct (generateText_step context modelClass w) as (w' & -> & Hc & Hd & _).
  exists w'. destruct (response _ _ _ _ _); auto.
Qed.

Lemma calls_sleep (w : World) (ms : Z) : calls (w ++ [EvSetTimeout ms]) = calls w.
Proof. rewrite calls_app. unfold calls. simpl. lia. Qed.

Lemma delays_sleep (w : World) (ms : Z) : delays (w ++ [EvSetTimeout ms]) = delays w ++ [ms].
Proof. now rewrite delays_app. Qed.

Lemma doubling_S (first : Z) (n : nat) :
  doubling first (S n) = first :: doubling (first * 2) n.
Proof.
  unfold doubling. simpl. rewrite Z.mul_1_r. f_equal.
  rewrite <- seq_shift, map_map. apply map_ext. intros i.
  rewrite Nat2Z.inj_succ, Z.pow_succ_r by lia. lia.
Qed.

Lemma doubling_sum (first : Z) (n : nat) :
  fold_right Z.add 0 (doubling first n) = first * (2 ^ Z.of_nat n - 1).
Proof.
  revert first. induction n as [|n IH]; intros first.
  - simpl. lia.
  - rewrite doubling_S. simpl fold_right. rewrite IH.
    rewrite Nat2Z.inj_succ, Z.pow_succ_r by lia. lia.
Qed.

(** The loop after [N] failed attempts and a successful one. *)
Lemma retry_loop_schedule {A : Type} (parse : string -> option A) context modelClass
    (N : nat) :
  forall (fuel : nat) (retryDelay : Z) (w : World) (v : A),
    (forall k, (k < N)%nat -> outcome env runtime parse context modelClass (calls w + k) = None) ->
    outcome env runtime parse context modelClass (calls w + N) = Some v ->
    (N < fuel)%nat ->
    exists w',
      retry_loop (attempt_of env runtime parse context modelClass) fuel retryDelay w
      = (Some (Return v), w')
      /\ calls w' = (calls w + N + 1)%nat
      /\ delays w' = delays w ++ doubling retryDelay N.
Proof.
  induction N as [|N IH]; intros fuel retryDelay w v Hfail Hok Hfuel;
    (destruct fuel as [|fuel]; [lia|]); simpl;
    destruct (attempt_of_step parse context modelClass w) as (w1 & -> & Hc & Hd).
  - rewrite Nat.add_0_r in Hok. rewrite Hok. exists w1.
    rewrite Hc, Hd, app_nil_r. repeat split; lia.
  - pose proof (Hfail 0%nat ltac:(lia)) as H0. rewrite Nat.add_0_r in H0. rewrite H0.
    unfold sleep, emit; simpl.
    destruct (IH fuel (retryDelay * 2) (w1 ++ [EvSetTimeout retryDelay]) v)
      as (w' & -> & Hc' & Hd').
    + intros k Hk. rewrite calls_sleep, Hc.
      replace (S (calls w) + k)%nat with (calls w + S k)%nat by lia.
      apply Hfail. lia.
    + rewrite calls_sleep, Hc.
      replace (S (calls w) + N)%nat with (calls w + S N)%nat by lia.
      exact Hok.
    + lia.
    + exists w'. split; [reflexivity|].
      rewrite Hc', Hd', calls_sleep, delays_sleep, Hc, Hd, doubling_S, <- app_assoc.
      simpl. split; [lia|reflexivity].
Qed.
(** The loop never lets an exception out, and what it returns was parsed
    from a response of [generateText]. *)
Lemma retry_loop_returns_parsed {A : Type} (parse : string -> option A) context modelClass
    (fuel : nat) :
  forall (retryDelay : Z) (w w' : World) (c : completion A),
    retry_loop (attempt_of env runtime parse context modelClass) fuel retryDelay w
    = (Some c, w') ->
    exists k v, c = Return v /\ outcome env runtime parse context modelClass k = Some v.
Proof.
  induction fuel as [|fuel IH]; intros retryDelay w w' c; simpl; [discriminate|].
  destruct (attempt_of_step parse context modelClass w) as (w1 & -> & _ & _).
  destruct (outcome env runtime parse context modelClass (calls w)) as [v|] eqn:Hout.
  - intros [= <- <-]. eauto.
  - apply IH.
Qed.

(** While every attempt fails the loop goes on, whatever the fuel. *)
Lemma retry_loop_goes_on {A : Type} (parse : string -> option A) context modelClass
    (fuel : nat) :
  forall (retryDelay : Z) (w : World),
    (forall k, (calls w <= k)%nat -> outcome env runtime parse context modelClass k = None) ->
    fst (retry_loop (attempt_of env runtime parse context modelClass) fuel retryDelay w) = None.
Proof.
  induction fuel as [|fuel IH]; intros retryDelay w Hfail; simpl; [reflexivity|].
  destruct (attempt_of_step parse context modelClass w) as (w1 & -> & Hc & _).
  rewrite (Hfail (calls w)) by lia.
  apply IH. intros k Hk. apply Hfail.
  unfold sleep, emit in Hk. simpl in Hk. rewrite calls_sleep, Hc in Hk. lia.
Qed.

(** [generateMessageResponse]: responses that do not parse are retried
    without a wait. *)
Lemma message_loop_schedule context modelClass (N : nat) :
  forall (fuel : nat) (retryLength : Z) (w : World) (v : Content),
    (forall k, (k < N)%nat ->
       exists t, response env runtime context modelClass (calls w + k) = Return t
                 /\ parseJSONObjectFromText t = None) ->
    (exists t, response env runtime context modelClass (calls w + N) = Return t
               /\ parseJSONObjectFromText t = Some v) ->
    (N < fuel)%nat ->
    exists w',
      generateMessageResponse_loop env runtime context modelClass fuel retryLength w
      = (Some (Return v), w')
      /\ calls w' = (calls w + N + 1)%nat
      /\ delays w' = delays w.
Proof.
  induction N as [|N IH]; intros fuel retryLength w v Hfail Hok Hfuel;
    (destruct fuel as [|fuel]; [lia|]); simpl;
    destruct (generateText_step context modelClass w) as (w1 & -> & Hc & Hd & _).
  - destruct Hok as (t & Ht & Hp). rewrite Nat.add_0_r in Ht. rewrite Ht, Hp.
    exists w1. rewrite Hc, Hd. repeat split; lia.
  - destruct (Hfail 0%nat ltac:(lia)) as (t & Ht & Hp).
    rewrite Nat.add_0_r in Ht. rewrite Ht, Hp.
    destruct (IH fuel retryLength w1 v) as (w' & -> & Hc' & Hd').
    + intros k Hk. rewrite Hc.
      replace (S (calls w) + k)%nat with (calls w + S k)%nat by lia.
      apply Hfail. lia.
    + rewrite Hc. replace (S (calls w) + N)%nat with (calls w + S N)%nat by lia.
      exact Hok.
    + lia.
    + exists w'. split; [reflexivity|]. rewrite Hc', Hd', Hc, Hd. split; [lia|reflexivity].
Qed.

(** [generateMessageResponse] never lets an exception out either. *)
Lemma message_loop_returns_parsed context modelClass (fuel : nat) :
  forall (retryLength : Z) (w w' : World) (c : completion Content),
    generateMessageResponse_loop env runtime context modelClass fuel retryLength w
    = (Some c, w') ->
    exists k t v, c = Return v
                  /\ response env runtime context modelClass k = Return t
                  /\ parseJSONObjectFromText t = Some v.
Proof.
  induction fuel as [|fuel IH]; intros retryLength w w' c; simpl; [discriminate|].
  destruct (generateText_step context modelClass w) as (w1 & -> & _ & _).
  destruct (response env runtime context modelClass (calls w)) as [t|e] eqn:Hr.
  - destruct (parseJSONObjectFromText t) as [v|] eqn:Hp.
    + intros [= <- <-]. eauto 6.
    + apply IH.
  - apply IH.
Qed.
(** No retrying generator other than [generateTrueOrFalse] lets an
    exception out: when the call ends, it ends with a value. *)
Lemma retrying_generators_never_raise (g : Generator) context modelClass (fuel : nat)
    (w w' : World) (c : completion Parsed) :
  g <> TrueOrFalseGen ->
  run g env runtime context modelClass fuel w = (Some c, w') ->
  exists v, c = Return v.
Proof.
  intros Hg. unfold run, tagged.
  destruct g; try congruence; clear Hg.
  - unfold generateShouldRespond.
    destruct (retry_loop _ _ _ _) as [[c0|] w0] eqn:Hloop; simpl; [|discriminate].
    apply (retry_loop_returns_parsed (fun r => parseShouldRespondFromText (trim r)))
      in Hloop as (k & v & -> & _).
    intros [= <- _]. eauto.
  - unfold generateTextArray. destruct (truthy context); simpl.
    + destruct (retry_loop _ _ _ _) as [[c0|] w0] eqn:Hloop; simpl; [|discriminate].
      apply (retry_loop_returns_parsed parseJsonArrayFromText) in Hloop as (k & v & -> & _).
      intros [= <- _]. eauto.
    + intros [= <- _]. eauto.
  - unfold generateObjectArray. destruct (truthy context); simpl.
    + destruct (retry_loop _ _ _ _) as [[c0|] w0] eqn:Hloop; simpl; [|discriminate].
      apply (retry_loop_returns_parsed parseJsonArrayFromText) in Hloop as (k & v & -> & _).
      intros [= <- _]. eauto.
    + intros [= <- _]. eauto.
  - unfold generateMessageResponse.
    destruct (generateMessageResponse_loop _ _ _ _ _ _ _) as [[c0|] w0] eqn:Hloop;
      simpl; [|discriminate].
    apply message_loop_returns_parsed in Hloop as (k & t & v & -> & _).
    intros [= <- _]. eauto.
  - unfold generateTweetActions.
    destruct (retry_loop _ _ _ _) as [[c0|] w0] eqn:Hloop; simpl; [|discriminate].
    apply (retry_loop_returns_parsed (fun r => parseActionResponseFromText (trim r)))
      in Hloop as (k & v & -> & _).
    intros [= <- _]. eauto.
Qed.

(** [generateMessageResponse] goes on while no response parses. *)
Lemma message_loop_goes_on context modelClass (fuel : nat) :
  forall (retryLength : Z) (w : World),
    (forall k t, (calls w <= k)%nat ->
       response env runtime context modelClass k = Return t ->
       parseJSONObjectFromText t = None) ->
    fst (generateMessageResponse_loop env runtime context modelClass fuel retryLength w)
    = None.
Proof.
  induction fuel as [|fuel IH]; intros retryLength w Hfail; simpl; [reflexivity|].
  destruct (generateText_step context modelClass w) as (w1 & -> & Hc & _ & _).
  destruct (response env runtime context modelClass (calls w)) as [t|e] eqn:Hr.
  - rewrite (Hfail (calls w) t) by (auto; lia).
    apply IH. intros k t' Hk. apply Hfail. lia.
  - apply IH. intros k t' Hk. apply Hfail.
    unfold sleep, emit in Hk. simpl in Hk. rewrite calls_sleep, Hc in Hk. lia.
Qed.

(** The generators other than [generateTrueOrFalse] go on retrying as
    long as no attempt yields a response that parses. *)
Lemma retrying_generators_go_on (g : Generator) context modelClass (fuel : nat)
    (w : World) :
  g <> TrueOrFalseGen ->
  (g = TextArrayGen \/ g = ObjectArrayGen -> context <> "") ->
  (forall k t, (calls w <= k)%nat ->
     response env runtime context modelClass k = Return t -> parse_with g t = None) ->
  fst (run g env runtime context modelClass fuel w) = None.
Proof.
  intros Hg Hctx Hfail.
  assert (Hloop : forall (A : Type) (parse : string -> option A) (tag : A -> Parsed),
             (forall t, parse_with g t = tag <$> parse t) ->
             fst (tagged tag (retry_loop (attempt_of env runtime parse context modelClass)
                                         fuel 1000 w)) = None).
  { intros A parse tag Hparse. unfold tagged. simpl.
    rewrite (retry_loop_goes_on parse context modelClass fuel 1000 w); [reflexivity|].
    intros k Hk. unfold outcome.
    destruct (response env runtime context modelClass k) as [t|e] eqn:Hr; [|reflexivity].
    specialize (Hfail k t Hk Hr). rewrite Hparse in Hfail.
    now apply fmap_None in Hfail. }
  destruct g; try congruence; unfold run.
  - apply (Hloop _ (fun r => parseShouldRespondFromText (trim r)) PShouldRespond).
    reflexivity.
  - unfold generateTextArray.
    destruct context as [|c rest]; [exfalso; apply Hctx; auto|]. simpl negb. cbv iota.
    apply (Hloop _ parseJsonArrayFromText PArray). reflexivity.
  - unfold generateObjectArray.
    destruct context as [|c rest]; [exfalso; apply Hctx; auto|]. simpl negb. cbv iota.
    apply (Hloop _ parseJsonArrayFromText PArray). reflexivity.
  - unfold generateMessageResponse, tagged. simpl.
    rewrite message_loop_goes_on; [reflexivity|].
    intros k t Hk Hr. specialize (Hfail k t Hk Hr). simpl in Hfail.
    now apply fmap_None in Hfail.
  - apply (Hloop _ (fun r => parseActionResponseFromText (trim r)) PActions).
    reflexivity.
Qed.

(** C1. Every retrying generator returns a parsed value or retries
    without end, and raises nothing to its caller.  [generateTrueOrFalse]
    does not keep to it: on every input it raises a ReferenceError before
    its first attempt, with no call of [generateText] and no wait. *)
Theorem generateTrueOrFalse_raises context modelClass (fuel : nat) (w : World) :
  generateTrueOrFalse env runtime context modelClass fuel w
  = (Some (Throw (ReferenceError "modelSettings is not defined")), w)
  /\ run TrueOrFalseGen env runtime context modelClass fuel w
     = (Some (Throw (ReferenceError "modelSettings is not defined")), w).
Proof. split; reflexivity. Qed.

(** C2, as amended.  For [generateShouldRespond], [generateTextArray]
    and [generateObjectArray] (with a prompt that is not empty) and
    [generateTweetActions]: when [generateText] yields a response that
    does not parse on each of the first [N] attempts and one that parses
    on the next, the generator returns the parsed value after exactly
    [N + 1] calls, having waited 1000, 2000, ..., 1000 * 2^(N-1) ms, in
    total 1000 * (2^N - 1) ms.  [generateMessageResponse] makes the same
    [N + 1] calls and does not wait at all. *)
Theorem backoff_schedule (g : Generator) context modelClass (N fuel : nat) (w : World)
    (v : Parsed) :
  g <> TrueOrFalseGen ->
  (g = TextArrayGen \/ g = ObjectArrayGen -> context <> "") ->
  (forall k, (k < N)%nat ->
     exists t, response env runtime context modelClass (calls w + k) = Return t
               /\ parse_with g t = None) ->
  (exists t, response env runtime context modelClass (calls w + N) = Return t
             /\ parse_with g t = Some v) ->
  (N < fuel)%nat ->
  exists w',
    run g env runtime context modelClass fuel w = (Some (Return v), w')
    /\ calls w' = (calls w + N + 1)%nat
    /\ delays w' = delays w ++ expected_delays g N
    /\ total_delay w' - total_delay w
       = match g with
         | MessageResponseGen => 0
         | _ => 1000 * (2 ^ Z.of_nat N - 1)
         end.
Proof.
  intros Hg Hctx Hfail Hok Hfuel.
  assert (Hloop : forall (A : Type) (parse : string -> option A) (tag : A -> Parsed),
             (forall t, parse_with g t = tag <$> parse t) ->
             exists w',
               tagged tag (retry_loop (attempt_of env runtime parse context modelClass)
                                      fuel 1000 w)
               = (Some (Return v), w')
               /\ calls w' = (calls w + N + 1)%nat
               /\ delays w' = delays w ++ doubling 1000 N
               /\ total_delay w' - total_delay w = 1000 * (2 ^ Z.of_nat N - 1)).
  { intros A parse tag Hparse.
    destruct Hok as (t & Ht & Hp). rewrite Hparse in Hp.
    apply fmap_Some in Hp as (a & Ha & ->).
    destruct (retry_loop_schedule parse context modelClass N fuel 1000 w a)
      as (w' & Hrun & Hc & Hd); [| |assumption|].
    - intros k Hk. destruct (Hfail k Hk) as (t' & Ht' & Hp').
      unfold outcome. rewrite Ht'. rewrite Hparse in Hp'.
      now apply fmap_None in Hp'.
    - unfold outcome. now rewrite Ht.
    - exists w'. unfold tagged. rewrite Hrun. simpl. repeat split; try assumption.
      unfold total_delay. rewrite Hd, sum_app, doubling_sum. lia. }
  destruct g; try congruence; unfold run, expected_delays.
  - apply (Hloop _ (fun r => parseShouldRespondFromText (trim r)) PShouldRespond).
    reflexivity.
  - unfold generateTextArray.
    destruct context as [|c rest]; [exfalso; apply Hctx; auto|]. simpl negb. cbv iota.
    apply (Hloop _ parseJsonArrayFromText PArray). reflexivity.
  - unfold generateObjectArray.
    destruct context as [|c rest]; [exfalso; apply Hctx; auto|]. simpl negb. cbv iota.
    apply (Hloop _ parseJsonArrayFromText PArray). reflexivity.
  - unfold generateMessageResponse.
    destruct Hok as (t & Ht & Hp). simpl in Hp. apply fmap_Some in Hp as (a & Ha & ->).
    destruct (message_loop_schedule context modelClass N fuel 1000 w a)
      as (w' & Hrun & Hc & Hd); [| |assumption|].
    + intros k Hk. destruct (Hfail k Hk) as (t' & Ht' & Hp'). simpl in Hp'.
      apply fmap_None in Hp'. eauto.
    + eauto.
    + exists w'. unfold tagged. rewrite Hrun. simpl.
      rewrite app_nil_r. repeat split; try assumption.
      unfold total_delay. rewrite Hd. lia.
  - apply (Hloop _ (fun r => parseActionResponseFromText (trim r)) PActions).
    reflexivity.
Qed.

End TextFacts.

Section TextClaims.
Import TextGeneration Samples.

(** An instance of [backoff_schedule]: the model answers "banana" and
    then "RESPOND". *)
Lemma backoff_schedule_witness :
  exists w',
    run (parsing := sample_parsing) ShouldRespondGen (scripted ["banana"] "RESPOND")
        sample_runtime "Should I answer?" SMALL 5 []
    = (Some (Return (PShouldRespond RESPOND)), w')
    /\ calls w' = 2%nat
    /\ delays w' = [1000]
    /\ total_delay w' - 0 = 1000.
Proof.
  apply (backoff_schedule (parsing := sample_parsing) (scripted ["banana"] "RESPOND")
           sample_runtime ShouldRespondGen "Should I answer?" SMALL 1 5 []
           (PShouldRespond RESPOND)).
  - discriminate.
  - intros [H|H]; discriminate.
  - intros k Hk. assert (k = 0%nat) as -> by lia. exists "banana". split; reflexivity.
  - exists "RESPOND". split; reflexivity.
  - lia.
Defined.

(** C2 does not hold of [generateMessageResponse]: after a response
    that does not parse ("banana") and one that does ("{}"), two calls
    were made and no wait at all, where the claim has 1000 ms. *)
Lemma backoff_fails_for_generateMessageResponse :
  let env := scripted ["banana"] "{}" in
  (response env sample_runtime "hello" SMALL 0 = Return "banana"
   /\ parse_with (parsing := sample_parsing) MessageResponseGen "banana" = None)
  /\ (response env sample_runtime "hello" SMALL 1 = Return "{}"
      /\ parse_with (parsing := sample_parsing) MessageResponseGen "{}"
         = Some (@PContent sample_parsing (JObj [])))
  /\ exists w',
       run (parsing := sample_parsing) MessageResponseGen env sample_runtime "hello" SMALL 5 []
       = (Some (Return (@PContent sample_parsing (JObj []))), w')
       /\ calls w' = 2%nat
       /\ delays w' = []
       /\ total_delay w' <> 1000 * (2 ^ 1 - 1).
Proof.
  cbv zeta. repeat split; try reflexivity.
  eexists. repeat split; try reflexivity. vm_compute. discriminate.
Qed.

(** C3. With an empty prompt [generateText] returns the empty string
    and contacts no provider.  With any other prompt it returns a string,
    which is the text of the provider's reply (or of the verified result
    of the adapter), or it raises: the exception of the collaborator that
    failed, or the failure of the proof check. *)
Theorem generateText_contract (env : Env) (runtime : IAgentRuntime) (context : string)
    (modelClass : ModelClass) (maxSteps : option Z) (vi : option bool) (w : World) :
  let r := generateText env runtime context modelClass maxSteps vi w in
  let k := calls w in
  (context = ""
   /\ r = (Return "", w ++ [EvGenerateText ""])
   /\ contacts (snd r) = contacts w)
  \/ (context <> ""
      /\ (contacts w < contacts (snd r))%nat
      /\ ((exists s : string,
             fst r = Return s
             /\ ((exists request, prompt request = context
                                  /\ aiGenerateText env k request = Return s)
                 \/ (exists result,
                       adapterGenerateText env k context modelClass = Return result
                       /\ adapterVerifyProof env k result = Return true
                       /\ s = text result)))
          \/ (exists e : JsError,
                fst r = Throw e
                /\ ((exists request, aiGenerateText env k request = Throw e)
                    \/ adapterGenerateText env k context modelClass = Throw e
                    \/ (exists result,
                          adapterGenerateText env k context modelClass = Return result
                          /\ (adapterVerifyProof env k result = Throw e
                              \/ (adapterVerifyProof env k result = Return false
                                  /\ e = Error "Failed to verify inference proof"))))))).
Proof.
  cbv zeta. unfold generateText, generateText_at, bind, emit, perform, try_catch, lift,
    ret, throw.
  destruct context as [|c rest]; simpl.
  { left. repeat split. rewrite contacts_app. unfold contacts. simpl. lia. }
  right. split; [discriminate|].
  destruct (_ && _); simpl.
  - destruct (adapterGenerateText env (calls w) (String c rest) modelClass)
      as [result|e] eqn:Hgen; simpl.
    + destruct (adapterVerifyProof env (calls w) result) as [[|]|e] eqn:Hver; simpl;
        (split; [rewrite !contacts_app; unfold contacts; simpl; lia|]).
      * left. eexists. split; [reflexivity|]. right. eauto.
      * right. eexists. split; [reflexivity|]. right. right. eauto 6.
      * right. eexists. split; [reflexivity|]. right. right. eauto 6.
    + split; [rewrite !contacts_app; unfold contacts; simpl; lia|].
      right. eexists. split; [reflexivity|]. auto.
  - match goal with |- context [aiGenerateText env (calls w) ?req] =>
      destruct (aiGenerateText env (calls w) req) as [s|e] eqn:Hai end; simpl;
      (split; [rewrite !contacts_app; unfold contacts; simpl; lia|]).
    + left. eexists. split; [reflexivity|]. left. eexists. split; [|exact Hai]. reflexivity.
    + right. eexists. split; [reflexivity|]. left. eauto.
Qed.

(** C4 does not hold of [generateMessageResponse]: with the empty prompt
    it calls [generateText] in every iteration and, as the empty response
    does not parse, has not returned when the fuel is used up. *)
Lemma empty_prompt_generateMessageResponse_calls_generateText :
  run (parsing := sample_parsing) MessageResponseGen (scripted [] "{}") sample_runtime
      "" SMALL 3 []
  = (None, [EvGenerateText ""; EvGenerateText ""; EvGenerateText ""]).
Proof. reflexivity. Qed.

End TextClaims.

Section EmptyPrompt.
Import TextGeneration.
Context {parsing : Parsing}.
Variable env : Env.
Variable runtime : IAgentRuntime.

(** The loop of [generateMessageResponse] on the empty prompt. *)
Lemma message_loop_empty_prompt modelClass (fuel : nat) :
  forall (retryLength : Z) (w : World),
    generateMessageResponse_loop env runtime "" modelClass (S fuel) retryLength w
    = match parseJSONObjectFromText "" with
      | Some parsedContent => (Some (Return parsedContent), w ++ [EvGenerateText ""])
      | None => (None, w ++ repeat (EvGenerateText "") (S fuel))
      end.
Proof.
  induction fuel as [|fuel IH]; intros retryLength w.
  - simpl. destruct (parseJSONObjectFromText ""); reflexivity.
  - change (generateMessageResponse_loop env runtime "" modelClass (S (S fuel)) retryLength w)
      with (match parseJSONObjectFromText "" with
            | None => generateMessageResponse_loop env runtime "" modelClass (S fuel)
                        retryLength (w ++ [EvGenerateText ""])
            | Some parsedContent => (Some (Return parsedContent), w ++ [EvGenerateText ""])
            end).
    rewrite IH. destruct (parseJSONObjectFromText ""); [reflexivity|].
    now rewrite <- app_assoc.
Qed.

Lemma contacts_marks (w : World) (n : nat) :
  contacts (w ++ repeat (EvGenerateText "") n) = contacts w.
Proof.
  rewrite contacts_app. unfold contacts at 2.
  induction n as [|n IH]; simpl in *; lia.
Qed.

(** C4, as amended.  With the empty prompt [generateTextArray] and
    [generateObjectArray] return the empty array at once: the world is
    unchanged, so [generateText] was not called.  [generateMessageResponse]
    has no such test: it calls [generateText], which answers the empty
    string without a request to the provider, and returns what the parser
    makes of the empty string after one call, or goes on calling without a
    wait when the parser makes nothing of it. *)
Theorem empty_prompt_short_circuit modelClass (fuel : nat) (w : World) :
  run TextArrayGen env runtime "" modelClass fuel w = (Some (Return (PArray [])), w)
  /\ run ObjectArrayGen env runtime "" modelClass fuel w = (Some (Return (PArray [])), w)
  /\ run MessageResponseGen env runtime "" modelClass (S fuel) w
     = match parseJSONObjectFromText "" with
       | Some parsedContent =>
           (Some (Return (PContent parsedContent)), w ++ [EvGenerateText ""])
       | None => (None, w ++ repeat (EvGenerateText "") (S fuel))
       end
  /\ contacts (snd (run MessageResponseGen env runtime "" modelClass (S fuel) w))
     = contacts w.
Proof.
  split; [reflexivity|]. split; [reflexivity|].
  unfold run, tagged, generateMessageResponse.
  rewrite message_loop_empty_prompt.
  destruct (parseJSONObjectFromText ""); simpl; (split; [reflexivity|]).
  - exact (contacts_marks w 1).
  - exact (contacts_marks w (S fuel)).
Qed.

End EmptyPrompt.

(** ** Image generation *)

Section ImageFacts.
Import ImageGeneration.
Variable env : Env.

(** *** The size of the default branch *)

Lemma pretty_N_go_no_x (x : N) :
  forall s, occurs "x" s = false -> occurs "x" (pretty_N_go x s) = false.
Proof.
  induction (N.lt_wf_0 x) as [x _ IH]; intros s Hs.
  assert (x = 0 \/ 0 < x)%N as [->|Hpos] by lia.
  - now rewrite pretty_N_go_0.
  - rewrite pretty_N_go_step by assumption. apply IH.
    + now apply N.div_lt.
    + simpl. rewrite Hs. unfold pretty_N_char. now repeat case_match.
Qed.

Lemma pretty_Z_no_x (z : Z) : occurs "x" (pretty z) = false.
Proof.
  assert (HN : forall n : N, occurs "x" (pretty n) = false).
  { intros n. unfold pretty, pretty_N. case_decide; [reflexivity|].
    now apply pretty_N_go_no_x. }
  destruct z as [|p|p]; unfold pretty, pretty_Z; [reflexivity| |].
  - apply (HN (N.pos p)).
  - simpl. apply (HN (N.pos p)).
Qed.

(** A string is cut at its first "x" in one way only. *)
Lemma cut_unique (s1 s2 t1 t2 : string) :
  occurs "x" s1 = false -> occurs "x" s2 = false ->
  s1 +:+ String "x" t1 = s2 +:+ String "x" t2 -> s1 = s2 /\ t1 = t2.
Proof.
  revert s2. induction s1 as [|a s1 IH]; intros [|b s2]; simpl.
  - intros _ _ [= ->]. auto.
  - intros _ Hb [= <- _]. simpl in Hb. discriminate.
  - intros Ha _ [= -> _]. simpl in Ha. discriminate.
  - destruct (Ascii.eqb a "x") eqn:Ha; [discriminate|].
    destruct (Ascii.eqb b "x") eqn:Hb; [discriminate|].
    intros H1 H2 [= -> H]. destruct (IH s2 H1 H2 H) as [-> ->]. auto.
Qed.

Lemma size_string_inj (w h w0 h0 : Z) :
  pretty w +:+ "x" +:+ pretty h = pretty w0 +:+ "x" +:+ pretty h0 ->
  w = w0 /\ h = h0.
Proof.
  intros H. apply cut_unique in H as [Hw Hh]; try apply pretty_Z_no_x.
  split; now apply (inj pretty).
Qed.

(** The string of the requested size is let through exactly when the
    size is an allowed one. *)
Lemma targetSize_spec (data : ImageRequest) :
  (In (width data, height data) allowed_sizes
   /\ targetSize data = pretty (width data) +:+ "x" +:+ pretty (height data))
  \/ (~ In (width data, height data) allowed_sizes /\ targetSize data = "1024x1024").
Proof.
  unfold targetSize.
  destruct (String.eqb_spec (pretty (width data) +:+ "x" +:+ pretty (height data))
              "1024x1024") as [H1|H1]; simpl.
  { left. split; [|reflexivity].
    apply (size_string_inj _ _ 1024 1024) in H1 as [-> ->]. simpl. auto. }
  destruct (String.eqb_spec (pretty (width data) +:+ "x" +:+ pretty (height data))
              "1792x1024") as [H2|H2]; simpl.
  { left. split; [|reflexivity].
    apply (size_string_inj _ _ 1792 1024) in H2 as [-> ->]. simpl. auto. }
  destruct (String.eqb_spec (pretty (width data) +:+ "x" +:+ pretty (height data))
              "1024x1792") as [H3|H3]; simpl.
  { left. split; [|reflexivity].
    apply (size_string_inj _ _ 1024 1792) in H3 as [-> ->]. simpl. auto. }
  right. split; [|reflexivity].
  intros [H|[H|[H|[]]]]; injection H as Hw Hh; rewrite <- Hw, <- Hh in *;
    [apply H1|apply H2|apply H3]; reflexivity.
Qed.

(** The default branch sends at most one request, to the OpenAI
    endpoint, and its size is [targetSize]. *)
Lemma default_branch_events runtime data ms (w : World) :
  exists evs,
    snd (default_branch env runtime data ms w) = w ++ evs
    /\ Forall (fun ev => exists key request,
                 ev = EvOpenAI key request /\ size request = targetSize data) evs
    /\ (truthy_opt (getSetting runtime "OPENAI_API_KEY") = true ->
        exists key request, evs = [EvOpenAI key request]).
Proof.
  unfold default_branch.
  destruct (truthy_opt (getSetting runtime "OPENAI_API_KEY")); simpl.
  - unfold bind, perform, emit, lift, ret. simpl.
    destruct (openaiImagesGenerate env _ _); simpl;
      (eexists; split; [reflexivity|]; split; [repeat constructor; eauto|eauto]).
  - exists []. rewrite app_nil_r. repeat split; [constructor|discriminate].
Qed.

(** *** The statements after line 831 *)

(** Once the name of line 831 has a value, a request for a provider
    without a branch of its own takes the default branch; the only
    request that leaves is the one to the OpenAI endpoint; its size is the
    requested one when that is an allowed size and 1024x1024 otherwise.
    The request is sent when the model settings and the OpenAI key are
    there. *)
Lemma generateImage_from_normalizes_size
    (lookup : ModelProviderName -> option ImageModelSettings)
    (data : ImageRequest) (runtime : IAgentRuntime) (w : World) :
  ~ In (imageModelProvider runtime) explicit_providers ->
  (forall ms key, dispatch env data runtime ms key = default_branch env runtime data ms)
  /\ exists evs,
       snd (generateImage_from lookup env data runtime w) = w ++ evs
       /\ Forall (fun ev => exists key request,
                    ev = EvOpenAI key request /\ size request = targetSize data) evs
       /\ (In (width data, height data) allowed_sizes ->
           targetSize data = pretty (width data) +:+ "x" +:+ pretty (height data))
       /\ (~ In (width data, height data) allowed_sizes -> targetSize data = "1024x1024")
       /\ (forall ms,
             lookup (imageModelProvider runtime) = Some ms ->
             truthy_opt (getSetting runtime "OPENAI_API_KEY") = true ->
             exists key request, evs = [EvOpenAI key request]).
Proof.
  intros Hprovider.
  assert (Hbranch : branch_of (imageModelProvider runtime) = Default).
  { destruct (imageModelProvider runtime); try reflexivity;
      exfalso; apply Hprovider; simpl; tauto. }
  assert (Hdispatch : forall ms key,
             dispatch env data runtime ms key = default_branch env runtime data ms).
  { intros ms key. unfold dispatch. now rewrite Hbranch. }
  split; [exact Hdispatch|].
  assert (Hsize : (In (width data, height data) allowed_sizes ->
                   targetSize data = pretty (width data) +:+ "x" +:+ pretty (height data))
                  /\ (~ In (width data, height data) allowed_sizes ->
                      targetSize data = "1024x1024")).
  { destruct (targetSize_spec data) as [[Hin ->]|[Hout ->]]; split; tauto. }
  destruct Hsize as [Hkept Hcoerce].
  unfold generateImage_from.
  destruct (lookup (imageModelProvider runtime)) as [ms|] eqn:Hms.
  - rewrite Hdispatch. unfold try_catch.
    destruct (default_branch_events runtime data ms w) as (evs & Hw & Hev & Hone).
    exists evs. repeat split; try assumption.
    + rewrite <- Hw. destruct (default_branch env runtime data ms w) as [[r|e] w1]; reflexivity.
    + intros ms' _ Hkey. auto.
  - exists []. simpl. rewrite app_nil_r. repeat split; try assumption; [constructor|].
    intros ms' Hms'. discriminate.
Qed.

(** Once the name of line 831 has a value, nothing is raised: the [try]
    of line 872 turns an exception of the chain of branches into the
    [error] of a failed result. *)
Lemma generateImage_from_never_raises
    (lookup : ModelProviderName -> option ImageModelSettings)
    (data : ImageRequest) (runtime : IAgentRuntime) (w : World) :
  is_throw (fst (generateImage_from lookup env data runtime w)) = false
  /\ (forall ms e w',
        lookup (imageModelProvider runtime) = Some ms ->
        dispatch env data runtime ms (resolveApiKey runtime) w = (Throw e, w') ->
        generateImage_from lookup env data runtime w = (Return (failed (Caught e)), w')).
Proof.
  unfold generateImage_from, try_catch, ret. split.
  - destruct (lookup (imageModelProvider runtime)) as [ms|]; [|reflexivity].
    destruct (dispatch env data runtime ms (resolveApiKey runtime) w) as [[r|e] w1];
      reflexivity.
  - intros ms e w' -> ->. reflexivity.
Qed.

(** *** The call as it is written *)

(** C5. The code does not keep to the claim.  Whatever the provider and
    the requested size, [generateImage] sends nothing, to the default
    provider or to any other: the call ends on line 831, where the name
    [getImageModelSettings] has no binding, and leaves the events as they
    were, without a result. *)
Theorem default_request_is_not_dispatched (data : ImageRequest) (runtime : IAgentRuntime)
    (w : World) :
  snd (generateImage env data runtime w) = w
  /\ is_return (fst (generateImage env data runtime w)) = false.
Proof. split; reflexivity. Qed.

(** C6. The code does not keep to the claim.  On every input
    [generateImage] raises a ReferenceError to its caller: line 831 names
    [getImageModelSettings], which the file neither imports nor declares,
    and that line is outside of the [try] of line 872. *)
Theorem generateImage_raises (data : ImageRequest) (runtime : IAgentRuntime) (w : World) :
  generateImage env data runtime w
  = (Throw (ReferenceError "getImageModelSettings is not defined"), w).
Proof. unfold generateImage, getImageModelSettings, throw. reflexivity. Qed.


End ImageFacts.

Section ImageClaims.
Import ImageGeneration Samples MoreSamples.

(** The request of the claim's example, 999x999 for the OpenAI provider:
    nothing is sent. *)
Example request_999x999_is_rejected :
  generateImage sample_image_env (sample_request 999 999) sample_runtime []
  = (Throw (ReferenceError "getImageModelSettings is not defined"), []).
Proof. reflexivity. Qed.

(** The same request for the statements after line 831, with a table of
    models: one request leaves, for 1024x1024. *)
Example request_999x999_after_line_831 :
  snd (generateImage_from sample_lookup sample_image_env (sample_request 999 999)
         sample_runtime [])
  = [EvOpenAI "sk-openai"
       {| openai_model := "sample-image-model"; openai_prompt := "a cat on a mat";
          size := "1024x1024"; n := Some 1; response_format := "b64_json" |}].
Proof. reflexivity. Qed.

(** A request for Venice, which would answer with an encoded image. *)
Example venice_request_is_rejected :
  generateImage gallery_env (sample_request 512 512) (image_runtime VENICE ∅) []
  = (Throw (ReferenceError "getImageModelSettings is not defined"), []).
Proof. reflexivity. Qed.

(** The statements after line 831 for that request: the image of the
    reply behind the prefix. *)
Example venice_request_after_line_831 :
  fst (generateImage_from sample_lookup gallery_env (sample_request 512 512)
         (image_runtime VENICE ∅) [])
  = Return (succeeded [data_url "image/png" "aGVsbG8="]).
Proof. vm_compute. reflexivity. Qed.

(** The statements after line 831 for Heurist: the only entry is the
    reply of the sequencer as it came. *)
Example heurist_request_after_line_831 :
  fst (generateImage_from sample_lookup sample_image_env (sample_request 512 512)
         heurist_runtime [])
  = Return (succeeded [JStr "https://heurist.example/image.png"])
  /\ ~ is_data_url (JStr "https://heurist.example/image.png").
Proof.
  split; [vm_compute; reflexivity|].
  intros (mime & payload & _ & H). unfold data_url in H. simpl in H. discriminate H.
Qed.

(** The statements after line 831 for the default branch without an
    OpenAI key: the failure comes back as a result. *)
Example missing_credential_after_line_831 :
  generateImage_from sample_lookup sample_image_env (sample_request 1024 1024)
    caption_runtime []
  = (Return (failed (Caught (Error "OPENAI_API_KEY is not set"))), []).
Proof. reflexivity. Qed.




End ImageClaims.

(** ** The wallet key *)

Section WalletKey.
Import KeypairUtils.
Context {libraries : Libraries}.
Variable runtime : IAgentRuntime.

(** Reading one setting or the other: the value is the first that is
    not null, and only these two settings are read. *)
Lemma readEither_spec (first second : string) (w : list Event) :
  exists keys,
    readEither runtime first second w
    = (Return (nullish (getSetting runtime first) (getSetting runtime second)),
       w ++ map EvGetSetting keys)
    /\ incl keys [first; second].
Proof.
  unfold readEither, readSetting, bind, perform, emit, lift, ret. simpl.
  destruct (getSetting runtime first) as [v|]; simpl.
  - exists [first]. split; [reflexivity|]. intros k [<-|[]]. simpl. auto.
  - exists [first; second]. unfold bind. simpl. rewrite <- app_assoc.
    split; [reflexivity|]. apply incl_refl.
Qed.

(** C10, as amended.  With [requirePrivateKey] the call raises exactly
    when the private key string is missing or empty, or is accepted
    neither as base58 nor as base64; base58 is tried first, base64 only
    when base58 failed, and a success returns a keypair.  Without
    [requirePrivateKey] only the two public key settings are read; the
    call raises exactly when the public key string is missing or empty,
    or when [PublicKey] does not accept it; a success returns a public key
    and no keypair. *)
Theorem getWalletKey_contract (w : list Event) :
  fst (getWalletKey runtime true w)
  = match privateKeyString runtime with
    | None | Some EmptyString => Throw (Error "Private key not found in settings")
    | Some s =>
        match base58_keypair s with
        | Return kp => Return {| keypair := Some kp; publicKey := None |}
        | Throw _ =>
            match base64_keypair s with
            | Return kp => Return {| keypair := Some kp; publicKey := None |}
            | Throw _ => Throw (Error "Invalid private key format")
            end
        end
    end
  /\ (is_throw (fst (getWalletKey runtime true w)) = true <->
      truthy_opt (privateKeyString runtime) = false
      \/ exists s, privateKeyString runtime = Some s
                   /\ is_throw (base58_keypair s) = true
                   /\ is_throw (base64_keypair s) = true)
  /\ (forall result,
        fst (getWalletKey runtime true w) = Return result ->
        exists kp, result = {| keypair := Some kp; publicKey := None |})
  /\ (exists keys,
        snd (getWalletKey runtime false w) = w ++ map EvGetSetting keys
        /\ incl keys ["SOLANA_PUBLIC_KEY"; "WALLET_PUBLIC_KEY"])
  /\ (is_throw (fst (getWalletKey runtime false w)) = true <->
      truthy_opt (publicKeyString runtime) = false
      \/ exists s, publicKeyString runtime = Some s /\ is_throw (new_PublicKey s) = true)
  /\ (forall result,
        fst (getWalletKey runtime false w) = Return result ->
        exists key, result = {| keypair := None; publicKey := Some key |}).
Proof.
  assert (Hprivate :
            fst (getWalletKey runtime true w)
            = match privateKeyString runtime with
              | None | Some EmptyString => Throw (Error "Private key not found in settings")
              | Some s =>
                  match base58_keypair s with
                  | Return kp => Return {| keypair := Some kp; publicKey := None |}
                  | Throw _ =>
                      match base64_keypair s with
                      | Return kp => Return {| keypair := Some kp; publicKey := None |}
                      | Throw _ => Throw (Error "Invalid private key format")
                      end
                  end
              end).
  { unfold getWalletKey. unfold bind at 1.
    destruct (readEither_spec "SOLANA_PRIVATE_KEY" "WALLET_PRIVATE_KEY" w)
      as (keys & -> & _).
    fold (privateKeyString runtime).
    destruct (privateKeyString runtime) as [[|c s]|]; try reflexivity.
    unfold try_catch, bind, lift, ret, throw, base58_keypair, base64_keypair.
    destruct (bs58_decode (String c s)) as [secretKey|e]; simpl.
    - destruct (Keypair_fromSecretKey secretKey); simpl; [reflexivity|].
      destruct (Keypair_fromSecretKey (Buffer_from_base64 (String c s))); reflexivity.
    - destruct (Keypair_fromSecretKey (Buffer_from_base64 (String c s))); reflexivity. }
  assert (Hpublic :
            exists keys,
              getWalletKey runtime false w
              = (match publicKeyString runtime with
                 | None | Some EmptyString =>
                     Throw (Error "Solana Public key not found in settings, but plugin was loaded, please set SOLANA_PUBLIC_KEY")
                 | Some s =>
                     match new_PublicKey s with
                     | Return key => Return {| keypair := None; publicKey := Some key |}
                     | Throw e => Throw e
                     end
                 end, w ++ map EvGetSetting keys)
              /\ incl keys ["SOLANA_PUBLIC_KEY"; "WALLET_PUBLIC_KEY"]).
  { unfold getWalletKey. unfold bind at 1.
    destruct (readEither_spec "SOLANA_PUBLIC_KEY" "WALLET_PUBLIC_KEY" w)
      as (keys & -> & Hkeys).
    fold (publicKeyString runtime). exists keys. split; [|exact Hkeys].
    destruct (publicKeyString runtime) as [[|c s]|]; try reflexivity.
    unfold bind, lift, ret. destruct (new_PublicKey (String c s)); reflexivity. }
  destruct Hpublic as (keys & Hpublic & Hkeys).
  split; [exact Hprivate|]. rewrite Hprivate, Hpublic. simpl.
  split; [|split; [|split; [|split]]].
  - destruct (privateKeyString runtime) as [[|c s]|]; simpl.
    + split; auto.
    + destruct (base58_keypair (String c s)) eqn:H58; simpl.
      * split; [discriminate|]. intros [H|(s' & [= <-] & H & _)]; [discriminate|].
        rewrite H58 in H. discriminate.
      * destruct (base64_keypair (String c s)) eqn:H64; simpl.
        -- split; [discriminate|]. intros [H|(s' & [= <-] & _ & H)]; [discriminate|].
           rewrite H64 in H. discriminate.
        -- split; auto. intros _. right. exists (String c s).
           rewrite H58, H64. auto.
    + split; auto.
  - intros result.
    destruct (privateKeyString runtime) as [[|c s]|]; try discriminate.
    destruct (base58_keypair (String c s)); [intros [= <-]; eauto|].
    destruct (base64_keypair (String c s)); [intros [= <-]; eauto|discriminate].
  - exists keys. auto.
  - destruct (publicKeyString runtime) as [[|c s]|]; simpl.
    + split; auto.
    + destruct (new_PublicKey (String c s)) eqn:Hkey; simpl.
      * split; [discriminate|]. intros [H|(s' & [= <-] & H)]; [discriminate|].
        rewrite Hkey in H. discriminate.
      * split; auto. intros _. right. exists (String c s). rewrite Hkey. auto.
    + split; auto.
  - intros result.
    destruct (publicKeyString runtime) as [[|c s]|]; try discriminate.
    destruct (new_PublicKey (String c s)); [intros [= <-]; eauto|discriminate].
Qed.

End WalletKey.

Section WalletKeyClaims.
Import KeypairUtils Samples.

(** C10 does not hold without [requirePrivateKey]: a public key setting
    is there, and the call raises all the same, because [PublicKey] does
    not accept the string. *)
Lemma getWalletKey_raises_with_a_public_key_setting :
  getSetting wallet_runtime "SOLANA_PUBLIC_KEY" = Some "not-a-key!"
  /\ getWalletKey (libraries := sample_libraries) wallet_runtime false []
     = (Throw (Error "Non-base58 character"), [EvGetSetting "SOLANA_PUBLIC_KEY"]).
Proof. split; reflexivity. Qed.

End WalletKeyClaims.

(** * Further properties *)

(** ** Slices, replacement and lower case *)

Section JsMoreFacts.

(** [slice] with a negative start keeps a suffix, of the length asked
    for when the list has that many elements. *)
Lemma slice_from_suffix {A : Type} (n : Z) (l : list A) :
  0 < n ->
  exists dropped,
    l = dropped ++ slice_from (- n) l
    /\ Z.of_nat (length (slice_from (- n) l)) = Z.min (Z.of_nat (length l)) n.
Proof.
  intros Hn. unfold slice_from.
  destruct (Z.ltb_spec (- n) 0) as [_|H]; [|lia].
  exists (firstn (Z.to_nat (Z.max (Z.of_nat (length l) + - n) 0)) l).
  split; [now rewrite firstn_skipn|].
  rewrite length_skipn. lia.
Qed.

Lemma string_of_list_ascii_app (a b : list ascii) :
  string_of_list_ascii (a ++ b) = string_of_list_ascii a +:+ string_of_list_ascii b.
Proof. induction a as [|c a IH]; simpl; [reflexivity|]. now rewrite IH. Qed.

Lemma string_length_of_list (a : list ascii) :
  String.length (string_of_list_ascii a) = length a.
Proof. induction a as [|c a IH]; simpl; [reflexivity|]. now rewrite IH. Qed.

Lemma length_list_of_string (s : string) :
  length (list_ascii_of_string s) = String.length s.
Proof. induction s as [|c s IH]; simpl; [reflexivity|]. now rewrite IH. Qed.

(** [s.slice(-n)] is a suffix of [s] with at most [n] code units. *)
Lemma string_slice_suffix (n : Z) (s : string) :
  0 < n ->
  exists dropped,
    s = dropped +:+ string_slice (- n) s
    /\ Z.of_nat (String.length (string_slice (- n) s))
       = Z.min (Z.of_nat (String.length s)) n.
Proof.
  intros Hn. unfold string_slice.
  destruct (slice_from_suffix n (list_ascii_of_string s) Hn) as (dropped & Heq & Hlen).
  exists (string_of_list_ascii dropped). split.
  - rewrite <- string_of_list_ascii_app, <- Heq.
    now rewrite string_of_list_ascii_of_string.
  - rewrite string_length_of_list, Hlen, length_list_of_string. reflexivity.
Qed.

Lemma startsWith_app (p rest : string) : startsWith p (p +:+ rest) = true.
Proof.
  induction p as [|c p IH]; [reflexivity|].
  rewrite append_cons. unfold startsWith. fold startsWith.
  now rewrite Ascii.eqb_refl.
Qed.

Lemma string_drop_app (p rest : string) : string_drop (String.length p) (p +:+ rest) = rest.
Proof. induction p as [|c p IH]; [now destruct rest|]. exact IH. Qed.

Lemma replace_first_unfold (p r s : string) :
  replace_first p r s
  = if startsWith p s then r +:+ string_drop (String.length p) s
    else match s with
         | EmptyString => EmptyString
         | String c rest => String c (replace_first p r rest)
         end.
Proof. destruct s; reflexivity. Qed.

(** Replacing a pattern at the head of a string. *)
Lemma replace_first_head (p r rest : string) :
  replace_first p r (p +:+ rest) = r +:+ rest.
Proof.
  rewrite replace_first_unfold, startsWith_app. now rewrite string_drop_app.
Qed.

Lemma includes_unfold (p s : string) :
  includes p s
  = if startsWith p s then true
    else match s with
         | EmptyString => false
         | String _ rest => includes p rest
         end.
Proof. destruct s; reflexivity. Qed.

(** Without an occurrence of the pattern nothing is replaced. *)
Lemma replace_first_absent (p r s : string) :
  includes p s = false -> replace_first p r s = s.
Proof.
  induction s as [|c s IH]; rewrite includes_unfold, replace_first_unfold.
  - destruct (startsWith p ""); [discriminate|reflexivity].
  - destruct (startsWith p (String c s)); [discriminate|].
    intros H. now rewrite IH.
Qed.



End JsMoreFacts.

(** ** Trimming to a token budget *)

Section TokenFacts.
Import Tokens.
Variable env : Env.

Lemma rough_cut_slice (context : string) (maxTokens : Z) :
  0 < maxTokens ->
  rough_cut context maxTokens (string_slice (- maxTokens * 4) context).
Proof.
  intros Hpos. unfold rough_cut.
  replace (- maxTokens * 4) with (- (maxTokens * 4)) by lia.
  destruct (string_slice_suffix (maxTokens * 4) context ltac:(lia)) as (dropped & Heq & Hlen).
  exists dropped. split; [exact Heq|]. lia.
Qed.

Lemma last_tokens_slice (tokens : list Z) (maxTokens : Z) :
  0 < maxTokens ->
  (Z.of_nat (length tokens) <=? maxTokens) = false ->
  last_tokens tokens maxTokens (slice_from (- maxTokens) tokens).
Proof.
  intros Hpos Hlong. apply Z.leb_gt in Hlong.
  destruct (slice_from_suffix maxTokens tokens Hpos) as (dropped & Heq & Hlen).
  exists dropped. split; [exact Heq|]. lia.
Qed.

(** The last tokens of a list are determined. *)
Lemma last_tokens_unique (tokens : list Z) (maxTokens : Z) (kept1 kept2 : list Z) :
  last_tokens tokens maxTokens kept1 -> last_tokens tokens maxTokens kept2 -> kept1 = kept2.
Proof.
  intros (d1 & H1 & L1) (d2 & H2 & L2). rewrite H1 in H2.
  apply app_inj_2 in H2 as [_ H]; [exact H|lia].
Qed.

Lemma string_app_length (a b : string) :
  String.length (a +:+ b) = (String.length a + String.length b)%nat.
Proof. induction a as [|c a IH]; simpl; [reflexivity|]. now rewrite IH. Qed.

Lemma string_app_inj_2 (a1 a2 b1 b2 : string) :
  String.length b1 = String.length b2 -> a1 +:+ b1 = a2 +:+ b2 -> b1 = b2.
Proof.
  intros Hlen Heq.
  assert (Ha : String.length a1 = String.length a2).
  { apply (f_equal String.length) in Heq. rewrite !string_app_length in Heq. lia. }
  clear Hlen. revert a2 Ha Heq.
  induction a1 as [|c a1 IH]; intros [|c2 a2] Ha Heq; simpl in Ha; try discriminate.
  - exact Heq.
  - rewrite !append_cons in Heq. injection Heq as _ Heq. apply (IH a2); [lia|exact Heq].
Qed.

(** The rough cut of a context is determined. *)
Lemma rough_cut_unique (context : string) (maxTokens : Z) (s1 s2 : string) :
  rough_cut context maxTokens s1 -> rough_cut context maxTokens s2 -> s1 = s2.
Proof.
  intros (d1 & H1 & L1) (d2 & H2 & L2). rewrite H1 in H2 at 1.
  apply string_app_inj_2 in H2; [exact H2|lia].
Qed.

(** [trimmed_to] answers one string at most. *)
Lemma trimmed_to_unique (tokenizer : completion Tokenizer) (context : string)
    (maxTokens : Z) (s1 s2 : string) :
  trimmed_to tokenizer context maxTokens s1 ->
  trimmed_to tokenizer context maxTokens s2 ->
  s1 = s2.
Proof.
  unfold trimmed_to. destruct tokenizer as [tokenizer|e]; [|apply rough_cut_unique].
  destruct (encode tokenizer context) as [tokens|e]; [|apply rough_cut_unique].
  destruct (Z.of_nat (length tokens) <=? maxTokens); [congruence|].
  intros (kept1 & Hk1 & H1) (kept2 & Hk2 & H2).
  rewrite (last_tokens_unique _ _ _ _ Hk1 Hk2) in H1.
  destruct (decode tokenizer kept2); [congruence|].
  eapply rough_cut_unique; eassumption.
Qed.

Lemma truncateTiktoken_trimmed (model context : string) (maxTokens : Z)
    (w : list Event) :
  0 < maxTokens ->
  exists s,
    truncateTiktoken env model context maxTokens w
    = (Return s, w ++ [EvEncodingForModel model])
    /\ trimmed_to (encodingForModel env model) context maxTokens s.
Proof.
  intros Hpos. unfold truncateTiktoken, trimmed_to, try_catch, bind, perform, emit, lift, ret.
  simpl.
  destruct (encodingForModel env model) as [tokenizer|e]; simpl;
    [|eauto using rough_cut_slice].
  destruct (encode tokenizer context) as [tokens|e] eqn:Henc; simpl;
    [|eauto using rough_cut_slice].
  destruct (Z.of_nat (length tokens) <=? maxTokens) eqn:Hlong; simpl.
  { eexists. split; reflexivity. }
  destruct (decode tokenizer (slice_from (- maxTokens) tokens)) as [s|e] eqn:Hdec; simpl.
  - exists s. split; [reflexivity|].
    exists (slice_from (- maxTokens) tokens).
    split; [now apply last_tokens_slice|]. now rewrite Hdec.
  - eexists. split; [reflexivity|].
    exists (slice_from (- maxTokens) tokens).
    split; [now apply last_tokens_slice|]. rewrite Hdec. now apply rough_cut_slice.
Qed.

Lemma truncateAuto_trimmed (modelPath context : string) (maxTokens : Z)
    (w : list Event) :
  0 < maxTokens ->
  exists s,
    truncateAuto env modelPath context maxTokens w
    = (Return s, w ++ [EvFromPretrained modelPath])
    /\ trimmed_to (from_pretrained env modelPath) context maxTokens s.
Proof.
  intros Hpos. unfold truncateAuto, trimmed_to, try_catch, bind, perform, emit, lift, ret.
  simpl.
  destruct (from_pretrained env modelPath) as [tokenizer|e]; simpl;
    [|eauto using rough_cut_slice].
  destruct (encode tokenizer context) as [tokens|e] eqn:Henc; simpl;
    [|eauto using rough_cut_slice].
  destruct (Z.of_nat (length tokens) <=? maxTokens) eqn:Hlong; simpl.
  { eexists. split; reflexivity. }
  destruct (decode tokenizer (slice_from (- maxTokens) tokens)) as [s|e] eqn:Hdec; simpl.
  - exists s. split; [reflexivity|].
    exists (slice_from (- maxTokens) tokens).
    split; [now apply last_tokens_slice|]. now rewrite Hdec.
  - eexists. split; [reflexivity|].
    exists (slice_from (- maxTokens) tokens).
    split; [now apply last_tokens_slice|]. rewrite Hdec. now apply rough_cut_slice.
Qed.

(** With a positive budget [trimTokens] returns, after one load. *)
Lemma trimTokens_positive_budget (context : string) (maxTokens : Z)
    (runtime : IAgentRuntime) (w : list Event) :
  context <> "" ->
  0 < maxTokens ->
  exists s ev, trimTokens env context maxTokens runtime w = (Return s, w ++ [ev]).
Proof.
  intros Hctx Hpos. unfold trimTokens.
  destruct context as [|c rest]; [congruence|]. simpl negb. cbv iota.
  destruct (Z.leb_spec maxTokens 0) as [H|_]; [lia|].
  assert (Hdefault : exists s ev,
             truncateTiktoken env "gpt-4o" (String c rest) maxTokens w
             = (Return s, w ++ [ev])).
  { destruct (truncateTiktoken_trimmed "gpt-4o" (String c rest) maxTokens w Hpos)
      as (s & Hs & _). eauto. }
  destruct (getSetting runtime "TOKENIZER_MODEL") as [[|m ms]|]; try exact Hdefault.
  destruct (getSetting runtime "TOKENIZER_TYPE") as [[|t ts]|]; try exact Hdefault.
  destruct (String.eqb _ (TokenizerType_Auto env)).
  - destruct (truncateAuto_trimmed (String m ms) (String c rest) maxTokens w Hpos)
      as (s & Hs & _). eauto.
  - destruct (String.eqb _ (TokenizerType_TikToken env)); [|exact Hdefault].
    destruct (truncateTiktoken_trimmed (String m ms) (String c rest) maxTokens w Hpos)
      as (s & Hs & _). eauto.
Qed.

(** X1. [trimTokens] stays within its budget.  For a context that is
    not empty and a positive [maxTokens] it loads exactly one tokenizer,
    the one that the settings [TOKENIZER_MODEL] and [TOKENIZER_TYPE]
    select, and returns: the context unchanged when that tokenizer
    encodes it into at most [maxTokens] tokens; the decoding of exactly
    the last [maxTokens] tokens when there are more; and the last
    [4 * maxTokens] code units of the context (all of it when it is
    shorter) when the load, the encoding or the decoding failed. *)
Theorem trimTokens_within_budget (context : string) (maxTokens : Z)
    (runtime : IAgentRuntime) (w : list Event) :
  context <> "" ->
  0 < maxTokens ->
  exists s,
    trimTokens env context maxTokens runtime w
    = (Return s, w ++ [expected_load env runtime])
    /\ trimmed_to (tokenizer_of env (expected_load env runtime)) context maxTokens s.
Proof.
  intros Hctx Hpos. unfold trimTokens, expected_load.
  destruct context as [|c rest]; [congruence|]. simpl negb. cbv iota.
  destruct (Z.leb_spec maxTokens 0) as [H|_]; [lia|].
  pose proof (truncateTiktoken_trimmed "gpt-4o" (String c rest) maxTokens w Hpos)
    as Hdefault.
  destruct (getSetting runtime "TOKENIZER_MODEL") as [[|m ms]|]; cbn -[String.eqb];
    try exact Hdefault.
  destruct (getSetting runtime "TOKENIZER_TYPE") as [[|t ts]|]; cbn -[String.eqb];
    try exact Hdefault.
  destruct (String.eqb (String t ts) (TokenizerType_Auto env)).
  - exact (truncateAuto_trimmed (String m ms) (String c rest) maxTokens w Hpos).
  - destruct (String.eqb (String t ts) (TokenizerType_TikToken env)); [|exact Hdefault].
    exact (truncateTiktoken_trimmed (String m ms) (String c rest) maxTokens w Hpos).
Qed.

(** X2. [trimTokens] raises exactly for a context that is not empty
    together with a [maxTokens] that is not positive; the empty context
    comes back as the empty string whatever [maxTokens] is; in both cases
    no tokenizer is loaded.  A failure of the tokenizer never reaches the
    caller. *)
Theorem trimTokens_raises_iff (context : string) (maxTokens : Z)
    (runtime : IAgentRuntime) (w : list Event) :
  (is_throw (fst (trimTokens env context maxTokens runtime w)) = true
   <-> context <> "" /\ maxTokens <= 0)
  /\ (context <> "" /\ maxTokens <= 0 ->
      trimTokens env context maxTokens runtime w
      = (Throw (Error "maxTokens must be positive"), w))
  /\ trimTokens env "" maxTokens runtime w = (Return "", w).
Proof.
  split; [|split; [|reflexivity]].
  - destruct context as [|c rest].
    + simpl. split; [discriminate|]. intros [H _]. congruence.
    + destruct (Z.leb_spec maxTokens 0) as [Hle|Hpos].
      * unfold trimTokens. simpl negb. cbv iota.
        destruct (Z.leb_spec maxTokens 0) as [_|H]; [|lia].
        simpl. split; [intros _; split; [discriminate|assumption]|reflexivity].
      * destruct (trimTokens_positive_budget (String c rest) maxTokens runtime w)
          as (s & ev & ->); [discriminate|assumption|].
        simpl. split; [discriminate|]. intros [_ H]. lia.
  - intros [Hctx Hle]. unfold trimTokens.
    destruct context as [|c rest]; [congruence|]. simpl negb. cbv iota.
    destruct (Z.leb_spec maxTokens 0) as [_|H]; [reflexivity|lia].
Qed.

End TokenFacts.

(** ** The Cloudflare gateway and the on-chain prompt *)

Section GatewayFacts.
Import Gateway.

(** X3. [getCloudflareGatewayBaseURL] answers an address exactly when
    [CLOUDFLARE_GW_ENABLED] is the string "true" and both the account id
    and the gateway id are set and not empty; the address then is
    https://gateway.ai.cloudflare.com/v1/<account>/<gateway>/<provider in
    lower case>. *)
Theorem getCloudflareGatewayBaseURL_some_iff (runtime : IAgentRuntime)
    (provider url : string) :
  getCloudflareGatewayBaseURL runtime provider = Some url
  <-> getSetting runtime "CLOUDFLARE_GW_ENABLED" = Some "true"
      /\ exists account gateway,
           getSetting runtime "CLOUDFLARE_AI_ACCOUNT_ID" = Some account
           /\ account <> ""
           /\ getSetting runtime "CLOUDFLARE_AI_GATEWAY_ID" = Some gateway
           /\ gateway <> ""
           /\ url = "https://gateway.ai.cloudflare.com/v1/" +:+ account +:+ "/"
                    +:+ gateway +:+ "/" +:+ toLowerCase provider.
Proof.
  unfold getCloudflareGatewayBaseURL.
  case_bool_decide as Henabled; simpl.
  2: { split; [discriminate|]. intros [H _]. congruence. }
  destruct (getSetting runtime "CLOUDFLARE_AI_ACCOUNT_ID") as [[|a account]|]; simpl.
  1, 3: split; [discriminate|]; intros (_ & a' & g' & H & Hne & _); congruence.
  destruct (getSetting runtime "CLOUDFLARE_AI_GATEWAY_ID") as [[|g gateway]|]; simpl.
  1, 3: split; [discriminate|]; intros (_ & a' & g' & _ & _ & H & Hne & _); congruence.
  split.
  - intros [= <-]. split; [assumption|]. eexists _, _. repeat split; discriminate.
  - intros (_ & a' & g' & [= <-] & _ & [= <-] & _ & ->). reflexivity.
Qed.


Lemma includes_head (p rest : string) : includes p (p +:+ rest) = true.
Proof. rewrite includes_unfold. now rewrite startsWith_app. Qed.

(** X5. [fetchEternalAISystemPrompt] returns a content without "ipfs://"
    as it is and fetches nothing.  For a content "ipfs://<cid>" it first
    fetches https://gateway.lighthouse.storage/ipfs/<cid> and returns its
    text when the status is ok; only otherwise it fetches
    https://cdn.eternalai.org/upload/<cid>, and it raises "invalid
    on-chain system prompt" when that status is not ok either.  A failure
    of a fetch or of reading a text is raised as it is. *)
Theorem fetchEternalAISystemPrompt_cases (fetch : string -> completion TextResponse)
    (w : list Event) :
  (forall content,
     includes IPFS content = false ->
     fetchEternalAISystemPrompt fetch content w = (Return content, w))
  /\ (forall cid,
        let lightHouse := "https://gateway.lighthouse.storage/ipfs/" +:+ cid in
        let gcs := "https://cdn.eternalai.org/upload/" +:+ cid in
        fetchEternalAISystemPrompt fetch (IPFS +:+ cid) w
        = match fetch lightHouse with
          | Throw e => (Throw e, w ++ [EvGet lightHouse])
          | Return responseLH =>
              if ok responseLH then (text responseLH, w ++ [EvGet lightHouse])
              else
                match fetch gcs with
                | Throw e => (Throw e, w ++ [EvGet lightHouse; EvGet gcs])
                | Return responseGCS =>
                    if ok responseGCS
                    then (text responseGCS, w ++ [EvGet lightHouse; EvGet gcs])
                    else (Throw (Error "invalid on-chain system prompt"),
                          w ++ [EvGet lightHouse; EvGet gcs])
                end
          end).
Proof.
  split.
  - intros content H. unfold fetchEternalAISystemPrompt. now rewrite H.
  - intros cid. cbv zeta. unfold fetchEternalAISystemPrompt.
    rewrite includes_head, !replace_first_head.
    unfold bind, perform, emit, lift, throw. simpl.
    destruct (fetch _) as [responseLH|e]; [|reflexivity].
    destruct (ok responseLH); [now destruct (text responseLH)|].
    rewrite <- app_assoc. simpl.
    destruct (fetch _) as [responseGCS|e]; [|reflexivity].
    destruct (ok responseGCS); [now destruct (text responseGCS)|reflexivity].
Qed.

End GatewayFacts.

(** ** More on text generation *)

Section MoreTextFacts.
Import TextGeneration TextMore.
Context {parsing : Parsing}.
Variable env : Env.
Variable runtime : IAgentRuntime.

(** X6. With verifiable inference in force (the flag, or the process
    environment when the flag is left out, and an adapter in the runtime)
    [generateText] sends no request to the provider SDK; it returns the
    text of the adapter's result only when the adapter has verified the
    proof, and raises "Failed to verify inference proof" when the check
    answers false. *)
Theorem verifiable_path_bypasses_provider context modelClass maxSteps vi (w : World) :
  context <> "" ->
  verifiableInferenceAdapter runtime = true ->
  (vi = Some true \/ (vi = None /\ VERIFIABLE_INFERENCE_ENABLED env = Some "true")) ->
  exists evs,
    snd (generateText env runtime context modelClass maxSteps vi w) = w ++ evs
    /\ List.filter is_sdk_request evs = []
    /\ (forall s,
          fst (generateText env runtime context modelClass maxSteps vi w) = Return s ->
          exists result,
            adapterGenerateText env (calls w) context modelClass = Return result
            /\ adapterVerifyProof env (calls w) result = Return true
            /\ s = text result)
    /\ (forall result,
          adapterGenerateText env (calls w) context modelClass = Return result ->
          adapterVerifyProof env (calls w) result = Return false ->
          fst (generateText env runtime context modelClass maxSteps vi w)
          = Throw (Error "Failed to verify inference proof")).
Proof.
  intros Hctx Hadapter Hflag.
  unfold generateText, generateText_at, bind, emit, perform, try_catch, lift, ret, throw.
  destruct context as [|c rest]; [congruence|]. simpl.
  assert (Hvi : match vi with
                | Some flag => flag
                | None => bool_decide (VERIFIABLE_INFERENCE_ENABLED env = Some "true")
                end = true).
  { destruct Hflag as [->|[-> H]]; [reflexivity|]. now apply bool_decide_eq_true. }
  rewrite Hvi, Hadapter. simpl.
  destruct (adapterGenerateText env (calls w) (String c rest) modelClass)
    as [result|e] eqn:Hgen; simpl.
  - destruct (adapterVerifyProof env (calls w) result) as [[|]|e] eqn:Hver; simpl;
      (eexists; rewrite <- !app_assoc; split; [reflexivity|]; split; [reflexivity|]; split).
    + intros s [= <-]. eauto.
    + intros result' [= <-]. congruence.
    + discriminate.
    + intros result' [= <-] _. reflexivity.
    + discriminate.
    + intros result' [= <-]. congruence.
  - eexists; rewrite <- !app_assoc; split; [reflexivity|]; split; [reflexivity|]; split.
    + discriminate.
    + discriminate.
Qed.

(** X7. Without an adapter in the runtime the verifiable-inference flag
    changes nothing: the call goes to the provider SDK as if the flag were
    off, and nothing tells the caller that no proof was checked. *)
Theorem verification_flag_needs_adapter context modelClass maxSteps vi (w : World) :
  verifiableInferenceAdapter runtime = false ->
  generateText env runtime context modelClass maxSteps vi w
  = generateText env runtime context modelClass maxSteps (Some false) w.
Proof.
  intros Hadapter. unfold generateText, generateText_at.
  rewrite Hadapter, andb_false_r. reflexivity.
Qed.

(** The loop that waits after every failure, whatever the collaborators
    answer: after [m] failures it has waited [m] times, doubling from the
    first delay, and made [m] calls, one more if it has returned. *)
Lemma retry_loop_invariant {A : Type} (parse : string -> option A) context modelClass
    (fuel : nat) :
  forall (retryDelay : Z) (w : World),
    exists m,
      (m <= fuel)%nat
      /\ delays (snd (retry_loop (attempt_of env runtime parse context modelClass)
                                 fuel retryDelay w))
         = delays w ++ doubling retryDelay m
      /\ calls (snd (retry_loop (attempt_of env runtime parse context modelClass)
                                fuel retryDelay w))
         = (calls w + m
            + match fst (retry_loop (attempt_of env runtime parse context modelClass)
                                    fuel retryDelay w) with
              | Some _ => 1
              | None => 0
              end)%nat.
Proof.
  induction fuel as [|fuel IH]; intros retryDelay w; simpl.
  - exists 0%nat. simpl. rewrite app_nil_r. repeat split; lia.
  - destruct (attempt_of_step env runtime parse context modelClass w)
      as (w1 & -> & Hc & Hd).
    destruct (outcome env runtime parse context modelClass (calls w)) as [v|].
    + exists 0%nat. simpl. rewrite app_nil_r, Hc, Hd. repeat split; lia.
    + unfold sleep, emit. simpl.
      destruct (IH (retryDelay * 2) (w1 ++ [EvSetTimeout retryDelay]))
        as (m & Hm & Hdelays & Hcalls).
      exists (S m). rewrite Hdelays, Hcalls, calls_sleep, delays_sleep, Hc, Hd,
        doubling_S, <- app_assoc. simpl. repeat split; lia.
Qed.

(** X8. The backoff of [generateShouldRespond], [generateTextArray],
    [generateObjectArray] (prompt not empty) and [generateTweetActions]
    never resets and never skips: at any moment of a call, whatever the
    provider and the parser answered, the waits so far are 1000, 2000,
    4000, ... without a gap, one for every failed attempt, and the calls
    of [generateText] are one per wait, plus the successful one if the
    call has returned. *)
Theorem backoff_never_resets (g : Generator) context modelClass (fuel : nat) (w : World) :
  g <> TrueOrFalseGen ->
  g <> MessageResponseGen ->
  (g = TextArrayGen \/ g = ObjectArrayGen -> context <> "") ->
  exists m,
    (m <= fuel)%nat
    /\ delays (snd (run g env runtime context modelClass fuel w))
       = delays w ++ doubling 1000 m
    /\ calls (snd (run g env runtime context modelClass fuel w))
       = (calls w + m
          + match fst (run g env runtime context modelClass fuel w) with
            | Some _ => 1
            | None => 0
            end)%nat.
Proof.
  intros Hg Hm Hctx.
  assert (Hloop : forall (A : Type) (parse : string -> option A) (tag : A -> Parsed),
             let r := tagged tag (retry_loop (attempt_of env runtime parse context modelClass)
                                             fuel 1000 w) in
             exists m,
               (m <= fuel)%nat
               /\ delays (snd r) = delays w ++ doubling 1000 m
               /\ calls (snd r)
                  = (calls w + m + match fst r with Some _ => 1 | None => 0 end)%nat).
  { intros A parse tag. cbv zeta.
    destruct (retry_loop_invariant parse context modelClass fuel 1000 w)
      as (m & Hle & Hd & Hc).
    exists m. unfold tagged. simpl. rewrite Hd, Hc. repeat split; try assumption.
    destruct (fst (retry_loop _ _ _ _)) as [[v|e]|]; reflexivity. }
  destruct g; try congruence; unfold run.
  - apply (Hloop _ (fun r => parseShouldRespondFromText (trim r)) PShouldRespond).
  - unfold generateTextArray.
    destruct context as [|c rest]; [exfalso; apply Hctx; auto|]. simpl negb. cbv iota.
    apply (Hloop _ parseJsonArrayFromText PArray).
  - unfold generateObjectArray.
    destruct context as [|c rest]; [exfalso; apply Hctx; auto|]. simpl negb. cbv iota.
    apply (Hloop _ parseJsonArrayFromText PArray).
  - apply (Hloop _ (fun r => parseActionResponseFromText (trim r)) PActions).
Qed.

(** X9. An exception of [generateText] counts as a failed attempt like
    a response that does not parse: when each of the first [N] attempts
    raises or does not parse and the next one parses, the four generators
    that wait after every failure return after [N + 1] calls and the
    waits 1000, 2000, ..., 1000 * 2^(N-1). *)
Theorem exceptions_are_retried (g : Generator) context modelClass (N fuel : nat)
    (w : World) (v : Parsed) :
  g <> TrueOrFalseGen ->
  g <> MessageResponseGen ->
  (g = TextArrayGen \/ g = ObjectArrayGen -> context <> "") ->
  (forall k, (k < N)%nat ->
     match response env runtime context modelClass (calls w + k) with
     | Return t => parse_with g t = None
     | Throw _ => True
     end) ->
  (exists t, response env runtime context modelClass (calls w + N) = Return t
             /\ parse_with g t = Some v) ->
  (N < fuel)%nat ->
  exists w',
    run g env runtime context modelClass fuel w = (Some (Return v), w')
    /\ calls w' = (calls w + N + 1)%nat
    /\ delays w' = delays w ++ doubling 1000 N.
Proof.
  intros Hg Hm Hctx Hfail Hok Hfuel.
  assert (Hloop : forall (A : Type) (parse : string -> option A) (tag : A -> Parsed),
             (forall t, parse_with g t = tag <$> parse t) ->
             exists w',
               tagged tag (retry_loop (attempt_of env runtime parse context modelClass)
                                      fuel 1000 w)
               = (Some (Return v), w')
               /\ calls w' = (calls w + N + 1)%nat
               /\ delays w' = delays w ++ doubling 1000 N).
  { intros A parse tag Hparse.
    destruct Hok as (t & Ht & Hp). rewrite Hparse in Hp.
    apply fmap_Some in Hp as (a & Ha & ->).
    destruct (retry_loop_schedule env runtime parse context modelClass N fuel 1000 w a)
      as (w' & Hrun & Hc & Hd); [| |assumption|].
    - intros k Hk. specialize (Hfail k Hk). unfold outcome.
      destruct (response env runtime context modelClass (calls w + k)); [|reflexivity].
      rewrite Hparse in Hfail. now apply fmap_None in Hfail.
    - unfold outcome. now rewrite Ht.
    - exists w'. unfold tagged. rewrite Hrun. auto. }
  destruct g; try congruence; unfold run.
  - apply (Hloop _ (fun r => parseShouldRespondFromText (trim r)) PShouldRespond).
    reflexivity.
  - unfold generateTextArray.
    destruct context as [|c rest]; [exfalso; apply Hctx; auto|]. simpl negb. cbv iota.
    apply (Hloop _ parseJsonArrayFromText PArray). reflexivity.
  - unfold generateObjectArray.
    destruct context as [|c rest]; [exfalso; apply Hctx; auto|]. simpl negb. cbv iota.
    apply (Hloop _ parseJsonArrayFromText PArray). reflexivity.
  - apply (Hloop _ (fun r => parseActionResponseFromText (trim r)) PActions).
    reflexivity.
Qed.

(** The loop of [generateMessageResponse] after [N] failed attempts and
    a successful one: it has waited once for every attempt that raised. *)
Lemma message_loop_error_backoff context modelClass (N : nat) :
  forall (fuel : nat) (retryLength : Z) (w : World) (v : Content),
    (forall k, (k < N)%nat ->
       match response env runtime context modelClass (calls w + k) with
       | Return t => parseJSONObjectFromText t = None
       | Throw _ => True
       end) ->
    (exists t, response env runtime context modelClass (calls w + N) = Return t
               /\ parseJSONObjectFromText t = Some v) ->
    (N < fuel)%nat ->
    exists w',
      generateMessageResponse_loop env runtime context modelClass fuel retryLength w
      = (Some (Return v), w')
      /\ calls w' = (calls w + N + 1)%nat
      /\ delays w'
         = delays w
           ++ doubling (retryLength * 2)
                (throws_in env runtime context modelClass (calls w) N).
Proof.
  induction N as [|N IH]; intros fuel retryLength w v Hfail Hok Hfuel;
    (destruct fuel as [|fuel]; [lia|]); simpl;
    destruct (generateText_step env runtime context modelClass w)
      as (w1 & -> & Hc & Hd & _).
  - destruct Hok as (t & Ht & Hp). rewrite Nat.add_0_r in Ht. rewrite Ht, Hp.
    exists w1. rewrite Hc, Hd, app_nil_r. repeat split; lia.
  - pose proof (Hfail 0%nat ltac:(lia)) as H0. rewrite Nat.add_0_r in H0.
    assert (Hshift : forall w2, calls w2 = S (calls w) ->
               (forall k, (k < N)%nat ->
                  match response env runtime context modelClass (calls w2 + k) with
                  | Return t => parseJSONObjectFromText t = None
                  | Throw _ => True
                  end)
               /\ (exists t, response env runtime context modelClass (calls w2 + N) = Return t
                             /\ parseJSONObjectFromText t = Some v)).
    { intros w2 Hw2. rewrite Hw2. split.
      - intros k Hk.
        replace (S (calls w) + k)%nat with (calls w + S k)%nat by lia.
        apply Hfail. lia.
      - replace (S (calls w) + N)%nat with (calls w + S N)%nat by lia. exact Hok. }
    destruct (response env runtime context modelClass (calls w)) as [t|e]; simpl.
    + rewrite H0.
      destruct (Hshift w1 Hc) as [Hfail1 Hok1].
      destruct (IH fuel retryLength w1 v Hfail1 Hok1 ltac:(lia)) as (w' & -> & Hc' & Hd').
      exists w'. split; [reflexivity|]. rewrite Hc', Hd', Hc, Hd.
      split; [lia|reflexivity].
    + unfold sleep, emit. simpl.
      assert (Hc2 : calls (w1 ++ [EvSetTimeout (retryLength * 2)]) = S (calls w))
        by now rewrite calls_sleep.
      destruct (Hshift _ Hc2) as [Hfail1 Hok1].
      destruct (IH fuel (retryLength * 2) _ v Hfail1 Hok1 ltac:(lia))
        as (w' & -> & Hc' & Hd').
      exists w'. split; [reflexivity|]. rewrite Hc', Hd', Hc2, delays_sleep, Hd.
      rewrite doubling_S, <- app_assoc. simpl. split; [lia|reflexivity].
Qed.

(** X10. The backoff of [generateMessageResponse]: when each of the
    first [N] attempts raises or does not parse and the next one parses,
    it returns after [N + 1] calls, having waited once for every attempt
    that raised and not at all for the others; the waits are 2000, 4000,
    8000, ... (the first delay is doubled before it is used). *)
Theorem message_response_waits_after_errors_only context modelClass (N fuel : nat)
    (w : World) (v : Content) :
  (forall k, (k < N)%nat ->
     match response env runtime context modelClass (calls w + k) with
     | Return t => parseJSONObjectFromText t = None
     | Throw _ => True
     end) ->
  (exists t, response env runtime context modelClass (calls w + N) = Return t
             /\ parseJSONObjectFromText t = Some v) ->
  (N < fuel)%nat ->
  exists w',
    generateMessageResponse env runtime context modelClass fuel w = (Some (Return v), w')
    /\ calls w' = (calls w + N + 1)%nat
    /\ delays w'
       = delays w ++ doubling 2000 (throws_in env runtime context modelClass (calls w) N).
Proof.
  intros Hfail Hok Hfuel. unfold generateMessageResponse.
  exact (message_loop_error_backoff context modelClass N fuel 1000 w v Hfail Hok Hfuel).
Qed.

(** The loops on the empty prompt: no request leaves the process. *)
Lemma retry_loop_empty_prompt {A : Type} (parse : string -> option A) modelClass
    (fuel : nat) :
  forall (retryDelay : Z) (w : World),
    contacts (snd (retry_loop (attempt_of env runtime parse "" modelClass)
                              fuel retryDelay w))
    = contacts w.
Proof.
  induction fuel as [|fuel IH]; intros retryDelay w; simpl; [reflexivity|].
  change (attempt_of env runtime parse "" modelClass w)
    with (Return (parse ""), w ++ [EvGenerateText ""]).
  destruct (parse "") as [v|]; simpl.
  - rewrite contacts_app. unfold contacts. simpl. lia.
  - unfold sleep, emit. simpl. rewrite IH, !contacts_app. unfold contacts. simpl. lia.
Qed.

(** X11. With the empty prompt no retrying generator ever contacts the
    provider or the adapter, however long it runs: [generateText] answers
    the empty string by itself on every attempt. *)
Theorem empty_prompt_contacts_nobody (g : Generator) modelClass (fuel : nat) (w : World) :
  contacts (snd (run g env runtime "" modelClass fuel w)) = contacts w.
Proof.
  destruct g; unfold run, tagged; simpl snd; try reflexivity.
  - exact (retry_loop_empty_prompt (fun r => parseShouldRespondFromText (trim r))
             modelClass fuel 1000 w).
  - unfold generateMessageResponse. destruct fuel as [|fuel]; [reflexivity|].
    rewrite (message_loop_empty_prompt env runtime modelClass fuel 1000 w).
    destruct (parseJSONObjectFromText ""); simpl.
    + exact (contacts_marks w 1).
    + exact (contacts_marks w (S fuel)).
  - exact (retry_loop_empty_prompt (fun r => parseActionResponseFromText (trim r))
             modelClass fuel 1000 w).
Qed.

End MoreTextFacts.

(** ** More on the wallet key *)

Section MoreWalletFacts.
Import KeypairUtils WalletMore.
Context {libraries : Libraries}.

Lemma readEither_first (runtime : IAgentRuntime) (first second value : string)
    (w : list Event) :
  getSetting runtime first = Some value ->
  readEither runtime first second w = (Return (Some value), w ++ [EvGetSetting first]).
Proof.
  intros H. unfold readEither, readSetting, bind, perform, emit, lift, ret. simpl.
  now rewrite H.
Qed.

(** X18. A SOLANA_ setting that is present hides the WALLET_ setting:
    the call reads the SOLANA_ setting only, and two runtimes that agree
    on it get the same outcome whatever their WALLET_ settings are. *)
Theorem solana_setting_takes_precedence (runtime1 runtime2 : IAgentRuntime)
    (requirePrivateKey : bool) (value : string) (w : list Event) :
  getSetting runtime1 (first_setting requirePrivateKey) = Some value ->
  getSetting runtime2 (first_setting requirePrivateKey) = Some value ->
  getWalletKey runtime1 requirePrivateKey w = getWalletKey runtime2 requirePrivateKey w
  /\ snd (getWalletKey runtime1 requirePrivateKey w)
     = w ++ [EvGetSetting (first_setting requirePrivateKey)].
Proof.
  intros H1 H2. unfold getWalletKey.
  destruct requirePrivateKey; simpl in H1, H2; unfold bind;
    rewrite (readEither_first runtime1 _ _ value w H1),
            (readEither_first runtime2 _ _ value w H2);
    (split; [reflexivity|]); destruct value as [|c value]; try reflexivity.
  - unfold try_catch, lift, ret, throw.
    destruct (bs58_decode (String c value)) as [secretKey|e]; simpl.
    + destruct (Keypair_fromSecretKey secretKey); simpl; [reflexivity|].
      destruct (Keypair_fromSecretKey (Buffer_from_base64 (String c value))); reflexivity.
    + destruct (Keypair_fromSecretKey (Buffer_from_base64 (String c value))); reflexivity.
  - unfold lift, ret. destruct (new_PublicKey (String c value)); reflexivity.
Qed.

(** X19. An empty SOLANA_ setting is not skipped: the call raises the
    "not found" error of its path without reading the WALLET_ setting,
    even when that one holds a key. *)
Theorem empty_solana_setting_masks_wallet_setting (runtime : IAgentRuntime)
    (w : list Event) :
  (getSetting runtime "SOLANA_PRIVATE_KEY" = Some "" ->
   getWalletKey runtime true w
   = (Throw (Error "Private key not found in settings"),
      w ++ [EvGetSetting "SOLANA_PRIVATE_KEY"]))
  /\ (getSetting runtime "SOLANA_PUBLIC_KEY" = Some "" ->
      getWalletKey runtime false w
      = (Throw (Error "Solana Public key not found in settings, but plugin was loaded, please set SOLANA_PUBLIC_KEY"),
         w ++ [EvGetSetting "SOLANA_PUBLIC_KEY"])).
Proof.
  split; intros H; unfold getWalletKey, bind;
    now rewrite (readEither_first runtime _ _ "" w H).
Qed.

(** X20. With [requirePrivateKey] the caller sees two errors only,
    "Private key not found in settings" and "Invalid private key format":
    what the decoders raised is not handed on.  The public key settings
    are not read. *)
Theorem private_key_errors_are_replaced (runtime : IAgentRuntime) (w : list Event) :
  (forall e,
     fst (getWalletKey runtime true w) = Throw e ->
     e = Error "Private key not found in settings"
     \/ e = Error "Invalid private key format")
  /\ exists keys,
       snd (getWalletKey runtime true w) = w ++ map EvGetSetting keys
       /\ incl keys ["SOLANA_PRIVATE_KEY"; "WALLET_PRIVATE_KEY"].
Proof.
  unfold getWalletKey. unfold bind.
  destruct (readEither_spec runtime "SOLANA_PRIVATE_KEY" "WALLET_PRIVATE_KEY" w)
    as (keys & -> & Hkeys).
  destruct (nullish _ _) as [[|c s]|]; simpl.
  1, 3: split; [intros e [= <-]; auto|eauto].
  unfold try_catch, lift, ret, throw.
  destruct (bs58_decode (String c s)) as [secretKey|e0]; simpl.
  - destruct (Keypair_fromSecretKey secretKey); simpl.
    + split; [discriminate|eauto].
    + destruct (Keypair_fromSecretKey (Buffer_from_base64 (String c s))); simpl;
        (split; [|eauto]); [discriminate|intros e' [= <-]; auto].
  - destruct (Keypair_fromSecretKey (Buffer_from_base64 (String c s))); simpl;
      (split; [|eauto]); [discriminate|intros e' [= <-]; auto].
Qed.

End MoreWalletFacts.

(** ** Instances *)

Section ExtraWitnesses.
Import Samples MoreSamples.

(** "hello world" trimmed to five tokens: "world". *)
Lemma trimTokens_within_budget_witness :
  Tokens.trimTokens sample_tokens "hello world" 5 sample_runtime []
  = (Return "world", [Tokens.EvEncodingForModel "gpt-4o"]).
Proof.
  destruct (trimTokens_within_budget sample_tokens "hello world" 5 sample_runtime [])
    as (s & Hrun & Htrimmed).
  - discriminate.
  - lia.
  - rewrite Hrun. f_equal. f_equal.
    apply (trimmed_to_unique _ _ _ _ _ Htrimmed).
    exists (code_units "world"). split; [|reflexivity].
    exists (code_units "hello "). split; reflexivity.
Defined.

(** A verified answer: the provider SDK is not contacted. *)
Lemma verifiable_path_bypasses_provider_witness :
  exists evs,
    snd (TextGeneration.generateText verifying_env verified_runtime "What is 6 x 7?"
           SMALL None None [])
    = [] ++ evs
    /\ List.filter TextMore.is_sdk_request evs = [].
Proof.
  destruct (verifiable_path_bypasses_provider verifying_env verified_runtime
              "What is 6 x 7?" SMALL None None [])
    as (evs & Hw & Hno & _).
  - discriminate.
  - reflexivity.
  - right. split; reflexivity.
  - exists evs. split; assumption.
Defined.

(** The flag without an adapter. *)
Lemma verification_flag_needs_adapter_witness :
  TextGeneration.generateText verifying_env sample_runtime "What is 6 x 7?" SMALL None
    (Some true) []
  = TextGeneration.generateText verifying_env sample_runtime "What is 6 x 7?" SMALL None
      (Some false) [].
Proof.
  apply (verification_flag_needs_adapter verifying_env sample_runtime
           "What is 6 x 7?" SMALL None (Some true) []).
  reflexivity.
Defined.

(** Two failures and the fuel used up. *)
Lemma backoff_never_resets_witness :
  exists m,
    (m <= 2)%nat
    /\ TextGeneration.delays
         (snd (TextGeneration.run (parsing := sample_parsing) TextGeneration.ShouldRespondGen
                 (scripted ["banana"; "apple"] "RESPOND") sample_runtime "Should I answer?"
                 SMALL 2 []))
       = TextGeneration.delays [] ++ TextGeneration.doubling 1000 m
    /\ TextGeneration.calls
         (snd (TextGeneration.run (parsing := sample_parsing) TextGeneration.ShouldRespondGen
                 (scripted ["banana"; "apple"] "RESPOND") sample_runtime "Should I answer?"
                 SMALL 2 []))
       = (TextGeneration.calls [] + m
          + match fst (TextGeneration.run (parsing := sample_parsing)
                         TextGeneration.ShouldRespondGen
                         (scripted ["banana"; "apple"] "RESPOND") sample_runtime
                         "Should I answer?" SMALL 2 []) with
            | Some _ => 1
            | None => 0
            end)%nat.
Proof.
  apply (backoff_never_resets (parsing := sample_parsing)
           (scripted ["banana"; "apple"] "RESPOND") sample_runtime
           TextGeneration.ShouldRespondGen "Should I answer?" SMALL 2 []).
  - discriminate.
  - discriminate.
  - intros [H|H]; discriminate.
Defined.

(** An exception, then "RESPOND". *)
Lemma exceptions_are_retried_witness :
  exists w',
    TextGeneration.run (parsing := sample_parsing) TextGeneration.ShouldRespondGen
      (failing_first [] "RESPOND") sample_runtime "Should I answer?" SMALL 5 []
    = (Some (Return (TextGeneration.PShouldRespond TextGeneration.RESPOND)), w')
    /\ TextGeneration.calls w' = 2%nat
    /\ TextGeneration.delays w' = [1000].
Proof.
  apply (exceptions_are_retried (parsing := sample_parsing) (failing_first [] "RESPOND")
           sample_runtime TextGeneration.ShouldRespondGen "Should I answer?" SMALL 1 5 []
           (TextGeneration.PShouldRespond TextGeneration.RESPOND)).
  - discriminate.
  - discriminate.
  - intros [H|H]; discriminate.
  - intros k Hk. assert (k = 0%nat) as -> by lia. exact I.
  - exists "RESPOND". split; reflexivity.
  - lia.
Defined.

(** An exception, then "banana", then "{}": one wait, of 2000 ms. *)
Lemma message_response_waits_after_errors_only_witness :
  exists w',
    TextGeneration.generateMessageResponse (parsing := sample_parsing)
      (failing_first ["banana"] "{}") sample_runtime "hello" SMALL 5 []
    = (Some (Return (JObj [])), w')
    /\ TextGeneration.calls w' = 3%nat
    /\ TextGeneration.delays w' = [2000].
Proof.
  apply (message_response_waits_after_errors_only (parsing := sample_parsing)
           (failing_first ["banana"] "{}") sample_runtime "hello" SMALL 2 5 [] (JObj [])).
  - intros k Hk.
    assert (k = 0 \/ k = 1)%nat as [-> | ->] by lia; [exact I|reflexivity].
  - exists "{}". split; reflexivity.
  - lia.
Defined.

(** A runtime with both public key settings and one with the first
    only. *)
Lemma solana_setting_takes_precedence_witness :
  KeypairUtils.getWalletKey (libraries := sample_libraries) wallet_runtime false []
  = KeypairUtils.getWalletKey (libraries := sample_libraries)
      (image_runtime OPENAI
         {[ "SOLANA_PUBLIC_KEY" := "not-a-key!";
            "WALLET_PUBLIC_KEY" := "4Nd1mBQtrMJVYVfKf2PJy9NZUZdTAsp7D4xWLs4gDB4T" ]})
      false []
  /\ snd (KeypairUtils.getWalletKey (libraries := sample_libraries) wallet_runtime false [])
     = [] ++ [KeypairUtils.EvGetSetting (WalletMore.first_setting false)].
Proof.
  apply (solana_setting_takes_precedence (libraries := sample_libraries) wallet_runtime
           (image_runtime OPENAI
              {[ "SOLANA_PUBLIC_KEY" := "not-a-key!";
                 "WALLET_PUBLIC_KEY" := "4Nd1mBQtrMJVYVfKf2PJy9NZUZdTAsp7D4xWLs4gDB4T" ]})
           false "not-a-key!" []).
  - reflexivity.
  - reflexivity.
Defined.

End ExtraWitnesses.
